(** * etl_project: coordinates to addresses, verified against the sources

    A shallow embedding of the two scripts of the repository,

      - [src/transform_db.py]               (module [TransformDb]) and
      - [src/transform_csv_to_database.py]  (module [TransformCsv]),

    which read coordinate rows, ask a reverse-geocoding service for the
    address of each one, extract and validate a structured address and
    insert coordinate and address into two database tables.

    Python dictionaries keep insertion order and have unique keys: they are
    association lists here.  The world outside the scripts (the geocoding
    service, the database's constraints, whether the module runs as
    [__main__]) is an explicit environment; tables, log, standard output
    and the calls sent to the service form the state that is threaded
    through the code. *)

From Stdlib Require Import QArith Ascii String.
From stdpp Require Import base decidable list sorting gmap strings.

Local Open Scope string_scope.
Local Open Scope list_scope.

(** ** Python values and dictionaries *)

Module Py.

(** The values that flow through the scripts.  Floats are carried from the
    input row to the database and never computed with or compared; they are
    kept as rationals. *)
Inductive value : Type :=
  | VNone
  | VStr (s : string)
  | VNum (x : Q).

(** [dict]: key/value pairs in insertion order. *)
Definition dict (V : Type) : Type := list (string * V).

(** [d.keys()], as the list [[*d.keys()]]. *)
Definition keys {V} (d : dict V) : list string := d.*1.

(** What Python guarantees of every dictionary: no key occurs twice. *)
Definition dict_ok {V} (d : dict V) : Prop := NoDup (keys d).

(** [d.get(k)] for a dictionary of values: [None] when [k] is absent. *)
Fixpoint get (k : string) (d : dict value) : value :=
  match d with
  | [] => VNone
  | (k', v) :: d' => if String.eqb k k' then v else get k d'
  end.

(** [d[k]] as an option: [None] stands for the [KeyError]. *)
Fixpoint lookup {V} (k : string) (d : dict V) : option V :=
  match d with
  | [] => None
  | (k', v) :: d' => if String.eqb k k' then Some v else lookup k d'
  end.

(** [d[k] = v]: an existing key keeps its place and takes the new value, a
    new key goes to the end. *)
Fixpoint setitem {V} (k : string) (v : V) (d : dict V) : dict V :=
  match d with
  | [] => [(k, v)]
  | (k', v') :: d' =>
      if String.eqb k k' then (k', v) :: d' else (k', v') :: setitem k v d'
  end.

(** [d.update(other)]: [d[k] = v] for every pair of [other], in order. *)
Definition update {V} (other : dict V) (d : dict V) : dict V :=
  fold_left (fun acc kv => setitem kv.1 kv.2 acc) other d.

(** Truth value of a container: empty is false. *)
Definition truthy {A} (l : list A) : bool :=
  match l with [] => false | _ :: _ => true end.

(** [x in l] for a list of strings. *)
Definition contains (x : string) (l : list string) : bool :=
  existsb (String.eqb x) l.

(** String comparison, [<=] on [str]: lexicographic on the characters. *)
Definition str_le (a b : string) : Prop := String.leb a b = true.

#[global] Instance str_le_dec (a b : string) : Decision (str_le a b) :=
  bool_eq_dec (String.leb a b) true.

(** [l.sort()] on a list of strings: a stable merge sort. *)
Definition sort (l : list string) : list string := merge_sort str_le l.

End Py.

Import Py.

(** ** The world around the scripts *)

Module World.

(** The exceptions that can reach the code: all of them subclasses of
    [Exception].  [SystemExit] is not one of them; it is the [Exited]
    outcome below. *)
Inductive exn : Type :=
  | KeyError (key : string)            (* row["column"] on a missing column *)
  | IndexError                         (* row.values[i] out of range *)
  | ApiError (message : string)        (* googlemaps.exceptions.ApiError *)
  | TransportError (message : string)  (* googlemaps: not an ApiError *)
  | IntegrityError (orig : string)     (* sqlalchemy.exc.IntegrityError *)
  | OperationalError (detail : string). (* any other database error *)

(** One entry of a geocoding candidate's ["address_components"].  A missing
    ["types"] key is [None]; [.get("long_name")] and [.get("short_name")]
    give [VNone] for a missing key. *)
Record component : Type := Component {
  types : option (list string);
  long_name : value;
  short_name : value
}.

(** One candidate of the service's answer; [None]: no
    ["address_components"] key. *)
Record candidate : Type := Candidate {
  cand_address_components : option (list component)
}.

(** A row of the input table (a pandas [Series]) and a row to insert. *)
Definition row : Type := dict value.

Inductive api_reply : Type :=
  | Reply (results : list candidate)
  | Fails (e : exn).

Inductive table : Type := coordinate_points_table | addresses_table.

(** What the scripts cannot decide themselves.  The service may answer
    according to the calls it has already received (a quota); the database
    accepts or refuses a row given the rows the table holds. *)
Record env : Type := Env {
  reverse_geocode : list (value * value) -> value -> value -> api_reply;
  db_refuses : table -> list row -> row -> option exn;
  module_is_main : bool                (* [__name__ == '__main__'] *)
}.

Inductive level : Type := DEBUG | INFO | WARNING | CRITICAL.

(** The texts handed to [logger] and [print], by the template that builds
    them. *)
Inductive message : Type :=
  | MsgSaved (address : row)
      (* f"Address saved to database: {address}" *)
  | MsgNotSaved (result : list candidate)
      (* f"Address couldn't be saved to database. Data returned from
         reverse_geocode API: {result}" *)
  | MsgText (text : string)
  | MsgExc (e : exn).

Record world : Type := World {
  coordinate_points : list row;        (* table "coordinate_points" *)
  addresses : list row;                (* table "addresses" *)
  log : list (level * message);
  stdout : list message;               (* what [print] wrote *)
  api_calls : list (value * value)     (* coordinates sent to the service *)
}.

Definition rows_of (t : table) (w : world) : list row :=
  match t with
  | coordinate_points_table => coordinate_points w
  | addresses_table => addresses w
  end.

Definition add_row (t : table) (r : row) (w : world) : world :=
  match t with
  | coordinate_points_table =>
      World (coordinate_points w ++ [r]) (addresses w) (log w) (stdout w)
            (api_calls w)
  | addresses_table =>
      World (coordinate_points w) (addresses w ++ [r]) (log w) (stdout w)
            (api_calls w)
  end.

Definition add_log (l : level) (m : message) (w : world) : world :=
  World (coordinate_points w) (addresses w) (log w ++ [(l, m)]) (stdout w)
        (api_calls w).

Definition add_stdout (m : message) (w : world) : world :=
  World (coordinate_points w) (addresses w) (log w) (stdout w ++ [m])
        (api_calls w).

Definition add_call (c : value * value) (w : world) : world :=
  World (coordinate_points w) (addresses w) (log w) (stdout w)
        (api_calls w ++ [c]).

(** How a piece of code ends: normally, with an exception in flight, or
    with [SystemExit(code)] in flight. *)
Inductive outcome (A : Type) : Type :=
  | Done (a : A) (w : world)
  | Raised (e : exn) (w : world)
  | Exited (code : Z) (w : world).

Arguments Done {A} a w.
Arguments Raised {A} e w.
Arguments Exited {A} code w.

Definition M (A : Type) : Type := world -> outcome A.

Definition ret {A} (a : A) : M A := fun w => Done a w.

Definition bind {A B} (m : M A) (k : A -> M B) : M B :=
  fun w =>
    match m w with
    | Done a w' => k a w'
    | Raised e w' => Raised e w'
    | Exited c w' => Exited c w'
    end.

Definition raise {A} (e : exn) : M A := fun w => Raised e w.

(** [os.sys.exit(code)]. *)
Definition sys_exit {A} (code : Z) : M A := fun w => Exited code w.

(** [try: body / except ...: handler]: [handler e] is [None] when no
    [except] clause matches [e].  [SystemExit] passes through. *)
Definition try_except {A} (body : M A) (handler : exn -> option (M A)) : M A :=
  fun w =>
    match body w with
    | Raised e w' =>
        match handler e with
        | Some h => h w'
        | None => Raised e w'
        end
    | o => o
    end.

Definition final_world {A} (o : outcome A) : world :=
  match o with Done _ w | Raised _ w | Exited _ w => w end.

(** [logger.<level>(m)].  The logger's threshold is INFO or DEBUG, and the
    code below logs at INFO and above: every call leaves a record.  Where
    the records are written (the log file, and the terminal when [main()]
    adds its handler) is the logger's configuration, outside the state. *)
Definition logger (l : level) (m : message) : M unit :=
  fun w => Done tt (add_log l m w).

Definition print (m : message) : M unit :=
  fun w => Done tt (add_stdout m w).

(** [row[column]] on a pandas [Series]. *)
Definition getitem (r : row) (column : string) : M value :=
  match lookup column r with
  | Some v => ret v
  | None => raise (KeyError column)
  end.

(** [row.values[i]]. *)
Definition values_at (r : row) (i : nat) : M value :=
  match nth_error (r.*2) i with
  | Some v => ret v
  | None => raise IndexError
  end.

(** [table.insert(r)] of the [dataset] library: the row is added and stays
    (every insert commits on its own), or the database raises. *)
Definition insert (E : env) (t : table) (r : row) : M unit :=
  fun w =>
    match db_refuses E t (rows_of t w) r with
    | None => Done tt (add_row t r w)
    | Some e => Raised e w
    end.

(** [s.replace("\n", " ")]. *)
Fixpoint replace_newlines (s : string) : string :=
  match s with
  | EmptyString => EmptyString
  | String c s' =>
      String (if Ascii.eqb c "010"%char then " "%char else c)
             (replace_newlines s')
  end.

Definition level_eqb (a b : level) : bool :=
  match a, b with
  | DEBUG, DEBUG | INFO, INFO | WARNING, WARNING | CRITICAL, CRITICAL => true
  | _, _ => false
  end.

(** How many records of a level the log holds. *)
Definition count_level (l : level) (w : world) : nat :=
  length (filter (fun e => Is_true (level_eqb e.1 l)) (log w)).

End World.

Import World.

Declare Scope py_scope.
Delimit Scope py_scope with py.
Notation "'let!' x ':=' m 'in' k" := (bind m (fun x => k))
  (at level 10, x name, m at level 100, k at level 200) : py_scope.
Notation "m ';;' k" := (bind m (fun _ => k))
  (at level 100, k at level 200, right associativity) : py_scope.
Local Open Scope py_scope.

(** ** src/transform_db.py *)

Module TransformDb.

(** [Converter.is_address_valid], lines 56-82. *)
Definition address_components : list string :=
  [ "country"; "state"; "city"; "neighborhood"; "street_number";
    "street_name"; "postal_code"; "latitude"; "longitude" ].

Definition is_address_valid {V} (address : dict V) : bool :=
  let address_keys := keys address in
  let address_keys := sort address_keys in
  let address_components := sort address_components in
  if bool_decide (address_keys = address_components) then true else false.

(** [tag in component.get("types", "")]: membership in the list of tags; in
    the default [""] none of the (non-empty) tags below occurs. *)
Definition has_type (tag : string) (component_types : option (list string))
  : bool :=
  match component_types with
  | Some tags => contains tag tags
  | None => false
  end.

(** The body of the loop of [get_address_from_address_components],
    lines 95-116: seven independent tests, each with its [update]. *)
Definition extract_component (address : dict value) (component : component)
  : dict value :=
  let component_types := types component in
  let address :=
    if has_type "country" component_types
    then update [("country", long_name component)] address else address in
  let address :=
    if has_type "administrative_area_level_1" component_types
    then update [("state", short_name component)] address else address in
  let address :=
    if has_type "administrative_area_level_2" component_types
    then update [("city", long_name component)] address else address in
  let address :=
    if has_type "sublocality_level_1" component_types
    then update [("neighborhood", long_name component)] address
    else address in
  let address :=
    if has_type "street_number" component_types
    then update [("street_number", long_name component)] address
    else address in
  let address :=
    if has_type "route" component_types
    then update [("street_name", long_name component)] address
    else address in
  let address :=
    if has_type "postal_code" component_types
    then update [("postal_code", long_name component)] address
    else address in
  address.

(** [Converter.get_address_from_address_components], lines 84-119.  The
    function returns the dictionary when it is not empty and falls off its
    end otherwise: Python's [None]. *)
Definition get_address_from_address_components
  (address_components : list component) : option (dict value) :=
  let address := fold_left extract_component address_components [] in
  if truthy address then Some address else None.

Section Pipeline.

Variable E : env.

(** [Converter.get_address_from_coordinates], lines 139-154.  Only
    [ApiError] is caught. *)
Definition get_address_from_coordinates (latitude longitude : value)
  : M (list candidate) :=
  fun w =>
    let w' := add_call (latitude, longitude) w in
    match reverse_geocode E (api_calls w) latitude longitude with
    | Reply results => Done results w'
    | Fails (ApiError message) =>
        (logger CRITICAL (MsgText message);; sys_exit 1) w'
    | Fails e => Raised e w'
    end.

(** [Converter.save_to_database], lines 156-176. *)
Definition save_to_database (coordinate address : row) : M unit :=
  let coordinate_table := coordinate_points_table in
  let addresses_table := addresses_table in
  try_except
    (insert E coordinate_table coordinate;;
     insert E addresses_table address;;
     let message := MsgSaved address in
     (if negb (module_is_main E) then print message else ret tt);;
     logger INFO message)
    (fun exc =>
       match exc with
       | IntegrityError orig =>
           Some (let message := MsgText (replace_newlines orig) in
                 (if negb (module_is_main E) then print message else ret tt);;
                 logger CRITICAL message)
       | _ =>
           Some ((if negb (module_is_main E) then print (MsgExc exc)
                  else ret tt);;
                 logger CRITICAL (MsgExc exc))
       end).

(** The dictionary built at lines 204-214 from the validated address. *)
Definition addresses_row (complete_address : dict value) : row :=
  [ ("street_number", get "street_number" complete_address);
    ("street_name", get "street_name" complete_address);
    ("neighborhood", get "neighborhood" complete_address);
    ("city", get "city" complete_address);
    ("state", get "state" complete_address);
    ("country", get "country" complete_address);
    ("postal_code", get "postal_code" complete_address);
    ("latitude", get "latitude" complete_address);
    ("longitude", get "longitude" complete_address) ].

(** One turn of the loop of [save_dataset_coordinates_to_database],
    lines 180-221. *)
Definition process_row (coordinate : row) : M unit :=
  let! latitude := getitem coordinate "latitude" in
  let! longitude := getitem coordinate "longitude" in
  let! result := get_address_from_coordinates latitude longitude in
  match result with
  | result_0 :: _ =>
      let address_components :=
        default [] (cand_address_components result_0) in
      if truthy address_components then
        let complete_address :=
          get_address_from_address_components address_components in
        match complete_address with
        | Some complete_address =>
            let! latitude := getitem coordinate "latitude" in
            let! longitude := getitem coordinate "longitude" in
            let complete_address :=
              update [("latitude", latitude); ("longitude", longitude)]
                     complete_address in
            if is_address_valid complete_address then
              let! latitude := getitem coordinate "latitude" in
              let! longitude := getitem coordinate "longitude" in
              let! distance_km := getitem coordinate "distance_km" in
              let! bearing_degrees := getitem coordinate "bearing_degrees" in
              let coordinate :=
                [ ("latitude", latitude); ("longitude", longitude);
                  ("distance_km", distance_km);
                  ("bearing_degrees", bearing_degrees) ] in
              let addresses := addresses_row complete_address in
              save_to_database coordinate addresses
            else ret tt
        | None => ret tt
        end
      else ret tt
  | [] =>
      let message := MsgNotSaved result in
      (if negb (module_is_main E) then print message else ret tt);;
      logger WARNING message
  end.

(** [Converter.save_dataset_coordinates_to_database], lines 178-221: the
    rows of [dataset_coordinates.iterrows()], in order. *)
Fixpoint save_dataset_coordinates_to_database
  (dataset_coordinates : list row) : M unit :=
  match dataset_coordinates with
  | [] => ret tt
  | coordinate :: rest =>
      process_row coordinate;;
      save_dataset_coordinates_to_database rest
  end.

End Pipeline.

End TransformDb.

(** ** src/transform_csv_to_database.py *)

Module TransformCsv.

(** [Converter.is_address_valid], lines 33-58.  The last two names are
    spelt as in the source. *)
Definition address_components : list string :=
  [ "country"; "state"; "city"; "neighborhood"; "street_number";
    "street_name"; "postal_code"; "latitute"; "longitute" ].

(** The [for key in address_keys] loop with its early [return False]. *)
Fixpoint all_keys_known (address_keys : list string) : bool :=
  match address_keys with
  | [] => true
  | key :: rest =>
      if negb (contains key address_components) then false
      else all_keys_known rest
  end.

Definition is_address_valid {V} (address : dict V) : bool :=
  let address_keys := keys address in
  all_keys_known address_keys.

(** [tag in component.get("types", "")], as in transform_db.py. *)
Definition has_type (tag : string) (component_types : option (list string))
  : bool :=
  match component_types with
  | Some tags => contains tag tags
  | None => false
  end.

(** The body of the loop of [get_address_from_address_components],
    lines 71-92. *)
Definition extract_component (address : dict value) (component : component)
  : dict value :=
  let component_types := types component in
  let address :=
    if has_type "country" component_types
    then update [("country", long_name component)] address else address in
  let address :=
    if has_type "administrative_area_level_1" component_types
    then update [("state", short_name component)] address else address in
  let address :=
    if has_type "administrative_area_level_2" component_types
    then update [("city", long_name component)] address else address in
  let address :=
    if has_type "sublocality_level_1" component_types
    then update [("neighborhood", long_name component)] address
    else address in
  let address :=
    if has_type "street_number" component_types
    then update [("street_number", long_name component)] address
    else address in
  let address :=
    if has_type "route" component_types
    then update [("street_name", long_name component)] address
    else address in
  let address :=
    if has_type "postal_code" component_types
    then update [("postal_code", long_name component)] address
    else address in
  address.

(** [Converter.get_address_from_address_components], lines 60-95. *)
Definition get_address_from_address_components
  (address_components : list component) : option (dict value) :=
  let address := fold_left extract_component address_components [] in
  if truthy address then Some address else None.

Section Pipeline.

Variable E : env.

(** [Converter.get_address_from_coordinates], lines 115-130. *)
Definition get_address_from_coordinates (latitude longitude : value)
  : M (list candidate) :=
  fun w =>
    let w' := add_call (latitude, longitude) w in
    match reverse_geocode E (api_calls w) latitude longitude with
    | Reply results => Done results w'
    | Fails (ApiError message) =>
        (logger CRITICAL (MsgText message);; sys_exit 1) w'
    | Fails e => Raised e w'
    end.

(** The dictionary built at lines 181-191. *)
Definition addresses_row (complete_address : dict value) : row :=
  [ ("street_number", get "street_number" complete_address);
    ("street_name", get "street_name" complete_address);
    ("neighborhood", get "neighborhood" complete_address);
    ("city", get "city" complete_address);
    ("state", get "state" complete_address);
    ("country", get "country" complete_address);
    ("postal_code", get "postal_code" complete_address);
    ("latitude", get "latitude" complete_address);
    ("longitude", get "longitude" complete_address) ].

(** One turn of the loop of [save_dataset_coordinates_to_database],
    lines 153-197.  The coordinates are merged from the row's first two
    cells, under the keys the validator of this file knows; no [try]
    surrounds the two inserts. *)
Definition process_row (coordinate : row) : M unit :=
  let coordinate_table := coordinate_points_table in
  let addresses := addresses_table in
  let! latitude := getitem coordinate "latitude" in
  let! longitude := getitem coordinate "longitude" in
  let! result := get_address_from_coordinates latitude longitude in
  match result with
  | result_0 :: _ =>
      let address_components :=
        default [] (cand_address_components result_0) in
      if truthy address_components then
        let complete_address :=
          get_address_from_address_components address_components in
        match complete_address with
        | Some complete_address =>
            let! latitute := values_at coordinate 0 in
            let! longitute := values_at coordinate 1 in
            let complete_address :=
              update [("latitute", latitute); ("longitute", longitute)]
                     complete_address in
            if is_address_valid complete_address then
              logger INFO (MsgSaved complete_address);;
              let! latitude := getitem coordinate "latitude" in
              let! longitude := getitem coordinate "longitude" in
              let! distance_km := getitem coordinate "distance_km" in
              let! bearing_degrees := getitem coordinate "bearing_degrees" in
              insert E coordinate_table
                [ ("latitude", latitude); ("longitude", longitude);
                  ("distance_km", distance_km);
                  ("bearing_degrees", bearing_degrees) ];;
              insert E addresses (addresses_row complete_address)
            else ret tt
        | None => ret tt
        end
      else ret tt
  | [] => logger WARNING (MsgNotSaved result)
  end.

(** [Converter.save_dataset_coordinates_to_database], lines 136-197.
    Opening the connection and the two table handles (lines 138-145) leave
    the state alone; the run is taken to continue from the debugger prompt
    of line 152, whose own banner is the debugger's output and not among
    the lines of [stdout]. *)
Fixpoint save_dataset_coordinates_to_database
  (dataset_coordinates : list row) : M unit :=
  match dataset_coordinates with
  | [] => ret tt
  | coordinate :: rest =>
      process_row coordinate;;
      save_dataset_coordinates_to_database rest
  end.

End Pipeline.

End TransformCsv.

(** ** Vocabulary of the properties *)

(** The set of field names of an address, and the nine names of a
    complete one. *)
Definition field_names {V} (address : dict V) : gset string :=
  list_to_set (keys address).

Definition required_fields : gset string :=
  {[ "country"; "state"; "city"; "neighborhood"; "street_number";
     "street_name"; "postal_code"; "latitude"; "longitude" ]}.

(** The seven tags the extractor recognizes. *)
Definition recognized_tags : list string :=
  [ "country"; "administrative_area_level_1"; "administrative_area_level_2";
    "sublocality_level_1"; "street_number"; "route"; "postal_code" ].

(** A component carries a tag when the tag is among its types. *)
Definition carries (tag : string) (c : component) : Prop :=
  match types c with
  | Some tags => tag ∈ tags
  | None => False
  end.

(** The fields one component contributes to the extracted address. *)
Definition fields_of (c : component) : gset string :=
  (if TransformDb.has_type "country" (types c)
   then {["country"]} else ∅)
  ∪ (if TransformDb.has_type "administrative_area_level_1" (types c)
     then {["state"]} else ∅)
  ∪ (if TransformDb.has_type "administrative_area_level_2" (types c)
     then {["city"]} else ∅)
  ∪ (if TransformDb.has_type "sublocality_level_1" (types c)
     then {["neighborhood"]} else ∅)
  ∪ (if TransformDb.has_type "street_number" (types c)
     then {["street_number"]} else ∅)
  ∪ (if TransformDb.has_type "route" (types c)
     then {["street_name"]} else ∅)
  ∪ (if TransformDb.has_type "postal_code" (types c)
     then {["postal_code"]} else ∅).

(** The seven fields the extractor can fill. *)
Definition extracted_fields : gset string :=
  {[ "country"; "state"; "city"; "neighborhood"; "street_number";
     "street_name"; "postal_code" ]}.

(** The tally of rows skipped because the service found nothing.  The
    scripts keep no counters; what they keep is the log, and the only
    record they write at WARNING is the one of such a row. *)
Definition skipped_not_found (w : world) : nat := count_level WARNING w.

(** The service finds nothing for this row in this state. *)
Definition finds_nothing (E : env) (coordinate : row) (w : world) : bool :=
  match lookup "latitude" coordinate, lookup "longitude" coordinate with
  | Some latitude, Some longitude =>
      match reverse_geocode E (api_calls w) latitude longitude with
      | Reply [] => true
      | _ => false
      end
  | _, _ => false
  end.

(** What [save_to_database] of transform_db.py leaves behind when it
    reports [m] at level [l]: the text on standard output unless the module
    is the main program, and the log record. *)
Definition reported (E : env) (l : level) (m : message) (w : world) : world :=
  add_log l m (if negb (module_is_main E) then add_stdout m w else w).

(** The text its two handlers report for an exception. *)
Definition failure_message (e : exn) : message :=
  match e with
  | IntegrityError orig => MsgText (replace_newlines orig)
  | _ => MsgExc e
  end.

(** The names the validator of transform_csv_to_database.py knows, as a
    set. *)
Definition csv_known_fields : gset string :=
  list_to_set TransformCsv.address_components.

(** The mapping of the extractor's seven tests: tag, field, and the name
    of the component that is stored. *)
Definition field_source : list (string * string * (component -> value)) :=
  [ ("country", "country", long_name);
    ("administrative_area_level_1", "state", short_name);
    ("administrative_area_level_2", "city", long_name);
    ("sublocality_level_1", "neighborhood", long_name);
    ("street_number", "street_number", long_name);
    ("route", "street_name", long_name);
    ("postal_code", "postal_code", long_name) ].

(** [r.get(field)] on what the extractor returned, [None] included. *)
Definition field_value (field : string) (r : option (dict value)) : value :=
  match r with
  | Some address => get field address
  | None => VNone
  end.

(** The columns of the rows the scripts insert. *)
Definition coordinate_columns : list string :=
  [ "latitude"; "longitude"; "distance_km"; "bearing_degrees" ].

Definition address_columns : list string :=
  [ "street_number"; "street_name"; "neighborhood"; "city"; "state";
    "country"; "postal_code"; "latitude"; "longitude" ].

(** [w'] keeps everything [w] holds: tables, log, standard output and calls
    have only been added to at their ends. *)
Definition extends (w w' : world) : Prop :=
  coordinate_points w `prefix_of` coordinate_points w'
  /\ addresses w `prefix_of` addresses w'
  /\ log w `prefix_of` log w'
  /\ stdout w `prefix_of` stdout w'
  /\ api_calls w `prefix_of` api_calls w'.

(** Every stored address can be joined to a stored coordinate on
    (latitude, longitude). *)
Definition joined (w : world) : Prop :=
  forall a, a ∈ addresses w ->
    exists c, c ∈ coordinate_points w
              /\ get "latitude" c = get "latitude" a
              /\ get "longitude" c = get "longitude" a.

(** The coordinates of a row as the scripts send them to the service. *)
Definition sent_for (coordinate : row) (call : value * value) : Prop :=
  lookup "latitude" coordinate = Some call.1
  /\ lookup "longitude" coordinate = Some call.2.

(** The shape of both loops over the rows: one turn after the other, as
    long as the turns end normally. *)
Fixpoint for_each (turn : row -> M unit) (rows : list row) : M unit :=
  match rows with
  | [] => ret tt
  | r :: rest => turn r;; for_each turn rest
  end.

(** No more address rows were added than coordinate rows. *)
Definition addresses_follow (w w' : world) : Prop :=
  length (addresses w') + length (coordinate_points w)
  <= length (coordinate_points w') + length (addresses w).

(** The rows added to the two tables have the columns of the two
    dictionaries the scripts build. *)
Definition added_rows_shaped (w w' : world) : Prop :=
  exists new_coordinates new_addresses,
    coordinate_points w' = coordinate_points w ++ new_coordinates
    /\ addresses w' = addresses w ++ new_addresses
    /\ Forall (fun r => keys r = coordinate_columns) new_coordinates
    /\ Forall (fun r => keys r = address_columns) new_addresses.

(** The ways one turn of the loop of transform_db.py can go, each with
    the outcome it has. *)
Inductive db_turn (E : env) (coordinate : row) (w : world)
  : outcome unit -> Prop :=
  | DbNoCoordinate column :
      column = "latitude"
      \/ (column = "longitude" /\ lookup "latitude" coordinate <> None) ->
      lookup column coordinate = None ->
      db_turn E coordinate w (Raised (KeyError column) w)
  | DbServiceError latitude longitude e :
      sent_for coordinate (latitude, longitude) ->
      reverse_geocode E (api_calls w) latitude longitude = Fails e ->
      (forall message, e <> ApiError message) ->
      db_turn E coordinate w (Raised e (add_call (latitude, longitude) w))
  | DbApiError latitude longitude message :
      sent_for coordinate (latitude, longitude) ->
      reverse_geocode E (api_calls w) latitude longitude
      = Fails (ApiError message) ->
      db_turn E coordinate w
        (Exited 1 (add_log CRITICAL (MsgText message)
                           (add_call (latitude, longitude) w)))
  | DbNotFound latitude longitude :
      sent_for coordinate (latitude, longitude) ->
      reverse_geocode E (api_calls w) latitude longitude = Reply [] ->
      db_turn E coordinate w
        (Done tt (reported E WARNING (MsgNotSaved [])
                           (add_call (latitude, longitude) w)))
  | DbSkipped latitude longitude result_0 others :
      sent_for coordinate (latitude, longitude) ->
      reverse_geocode E (api_calls w) latitude longitude
      = Reply (result_0 :: others) ->
      match TransformDb.get_address_from_address_components
              (default [] (cand_address_components result_0)) with
      | None => True
      | Some extracted =>
          TransformDb.is_address_valid
            (update [("latitude", latitude); ("longitude", longitude)]
                    extracted) = false
      end ->
      db_turn E coordinate w (Done tt (add_call (latitude, longitude) w))
  | DbNoColumn latitude longitude result_0 others extracted column :
      sent_for coordinate (latitude, longitude) ->
      reverse_geocode E (api_calls w) latitude longitude
      = Reply (result_0 :: others) ->
      TransformDb.get_address_from_address_components
        (default [] (cand_address_components result_0)) = Some extracted ->
      TransformDb.is_address_valid
        (update [("latitude", latitude); ("longitude", longitude)] extracted)
      = true ->
      column = "distance_km"
      \/ (column = "bearing_degrees"
          /\ lookup "distance_km" coordinate <> None) ->
      lookup column coordinate = None ->
      db_turn E coordinate w
        (Raised (KeyError column) (add_call (latitude, longitude) w))
  | DbSave latitude longitude result_0 others extracted
           distance_km bearing_degrees :
      sent_for coordinate (latitude, longitude) ->
      reverse_geocode E (api_calls w) latitude longitude
      = Reply (result_0 :: others) ->
      TransformDb.get_address_from_address_components
        (default [] (cand_address_components result_0)) = Some extracted ->
      TransformDb.is_address_valid
        (update [("latitude", latitude); ("longitude", longitude)] extracted)
      = true ->
      lookup "distance_km" coordinate = Some distance_km ->
      lookup "bearing_degrees" coordinate = Some bearing_degrees ->
      db_turn E coordinate w
        (TransformDb.save_to_database E
           [ ("latitude", latitude); ("longitude", longitude);
             ("distance_km", distance_km);
             ("bearing_degrees", bearing_degrees) ]
           (TransformDb.addresses_row
              (update [("latitude", latitude); ("longitude", longitude)]
                      extracted))
           (add_call (latitude, longitude) w)).

(** What transform_csv_to_database.py does once it has logged "Address
    saved": [merged] is the address, [w2] the state with that record. *)
Inductive csv_store (E : env) (coordinate : row) (latitude longitude : value)
       (merged : dict value) (w2 : world)
  : outcome unit -> Prop :=
  | CsvNoColumn column :
      column = "distance_km"
      \/ (column = "bearing_degrees"
          /\ lookup "distance_km" coordinate <> None) ->
      lookup column coordinate = None ->
      csv_store E coordinate latitude longitude merged w2
        (Raised (KeyError column) w2)
  | CsvCoordinateRefused distance_km bearing_degrees e :
      lookup "distance_km" coordinate = Some distance_km ->
      lookup "bearing_degrees" coordinate = Some bearing_degrees ->
      db_refuses E coordinate_points_table (coordinate_points w2)
        [ ("latitude", latitude); ("longitude", longitude);
          ("distance_km", distance_km);
          ("bearing_degrees", bearing_degrees) ] = Some e ->
      csv_store E coordinate latitude longitude merged w2 (Raised e w2)
  | CsvAddressRefused distance_km bearing_degrees e :
      lookup "distance_km" coordinate = Some distance_km ->
      lookup "bearing_degrees" coordinate = Some bearing_degrees ->
      db_refuses E coordinate_points_table (coordinate_points w2)
        [ ("latitude", latitude); ("longitude", longitude);
          ("distance_km", distance_km);
          ("bearing_degrees", bearing_degrees) ] = None ->
      db_refuses E addresses_table (addresses w2)
        (TransformCsv.addresses_row merged) = Some e ->
      csv_store E coordinate latitude longitude merged w2
        (Raised e
           (add_row coordinate_points_table
              [ ("latitude", latitude); ("longitude", longitude);
                ("distance_km", distance_km);
                ("bearing_degrees", bearing_degrees) ] w2))
  | CsvSaved distance_km bearing_degrees :
      lookup "distance_km" coordinate = Some distance_km ->
      lookup "bearing_degrees" coordinate = Some bearing_degrees ->
      db_refuses E coordinate_points_table (coordinate_points w2)
        [ ("latitude", latitude); ("longitude", longitude);
          ("distance_km", distance_km);
          ("bearing_degrees", bearing_degrees) ] = None ->
      db_refuses E addresses_table (addresses w2)
        (TransformCsv.addresses_row merged) = None ->
      csv_store E coordinate latitude longitude merged w2
        (Done tt
           (add_row addresses_table (TransformCsv.addresses_row merged)
              (add_row coordinate_points_table
                 [ ("latitude", latitude); ("longitude", longitude);
                   ("distance_km", distance_km);
                   ("bearing_degrees", bearing_degrees) ] w2))).

(** The same for transform_csv_to_database.py.  [cell_0] and [cell_1] are
    the first two cells of the row, [w2] the state once "Address saved" is
    logged. *)
Inductive csv_turn (E : env) (coordinate : row) (w : world)
  : outcome unit -> Prop :=
  | CsvNoCoordinate column :
      column = "latitude"
      \/ (column = "longitude" /\ lookup "latitude" coordinate <> None) ->
      lookup column coordinate = None ->
      csv_turn E coordinate w (Raised (KeyError column) w)
  | CsvServiceError latitude longitude e :
      sent_for coordinate (latitude, longitude) ->
      reverse_geocode E (api_calls w) latitude longitude = Fails e ->
      (forall message, e <> ApiError message) ->
      csv_turn E coordinate w (Raised e (add_call (latitude, longitude) w))
  | CsvApiError latitude longitude message :
      sent_for coordinate (latitude, longitude) ->
      reverse_geocode E (api_calls w) latitude longitude
      = Fails (ApiError message) ->
      csv_turn E coordinate w
        (Exited 1 (add_log CRITICAL (MsgText message)
                           (add_call (latitude, longitude) w)))
  | CsvNotFound latitude longitude :
      sent_for coordinate (latitude, longitude) ->
      reverse_geocode E (api_calls w) latitude longitude = Reply [] ->
      csv_turn E coordinate w
        (Done tt (add_log WARNING (MsgNotSaved [])
                          (add_call (latitude, longitude) w)))
  | CsvSkipped latitude longitude result_0 others :
      sent_for coordinate (latitude, longitude) ->
      reverse_geocode E (api_calls w) latitude longitude
      = Reply (result_0 :: others) ->
      TransformCsv.get_address_from_address_components
        (default [] (cand_address_components result_0)) = None ->
      csv_turn E coordinate w (Done tt (add_call (latitude, longitude) w))
  | CsvLogged latitude longitude result_0 others extracted cell_0 cell_1 o :
      sent_for coordinate (latitude, longitude) ->
      reverse_geocode E (api_calls w) latitude longitude
      = Reply (result_0 :: others) ->
      TransformCsv.get_address_from_address_components
        (default [] (cand_address_components result_0)) = Some extracted ->
      nth_error (coordinate.*2) 0 = Some cell_0 ->
      nth_error (coordinate.*2) 1 = Some cell_1 ->
      csv_store E coordinate latitude longitude
        (update [("latitute", cell_0); ("longitute", cell_1)] extracted)
        (add_log INFO
           (MsgSaved
              (update [("latitute", cell_0); ("longitute", cell_1)] extracted))
           (add_call (latitude, longitude) w))
        o ->
      csv_turn E coordinate w o.

(** The status with which the interpreter ends when the outcome of the
    batch function reaches the top of the script: [main()] calls the
    function as its last statement, in no [try] block, and the module calls
    [main()] under [if __name__ == "__main__"].  A normal return ends in
    status 0, [SystemExit(code)] in [code], an exception nobody caught in
    status 1. *)
Definition exit_status (o : outcome unit) : Z :=
  match o with
  | Done _ _ => 0
  | Exited code _ => code
  | Raised _ _ => 1
  end.

(** The value a call hands back to its caller, when it returns. *)
Definition returned {A} (o : outcome A) : option A :=
  match o with
  | Done a _ => Some a
  | _ => None
  end.

(** If the stored addresses could be joined to coordinates, they still
    can. *)
Definition keeps_joined (w w' : world) : Prop := joined w -> joined w'.

(** As many "Address saved" records (the INFO records) were added to the
    log as rows to [addresses]. *)
Definition saved_logged (w w' : world) : Prop :=
  count_level INFO w' + length (addresses w)
  = count_level INFO w + length (addresses w').

(** ** Sample inputs *)

Module Samples.

(** An address with one extracted field and the coordinates as
    transform_csv_to_database.py merges them. *)
Definition partial_address : dict value :=
  [ ("country", VStr "Brazil");
    ("latitute", VNum (-30 # 1)); ("longitute", VNum (-51 # 1)) ].

(** An address with exactly the nine fields, in no particular order. *)
Definition complete_address : dict value :=
  [ ("postal_code", VStr "90010-150"); ("country", VStr "Brazil");
    ("state", VStr "RS"); ("city", VStr "Porto Alegre");
    ("neighborhood", VStr "Centro"); ("street_number", VStr "123");
    ("street_name", VStr "Rua dos Andradas");
    ("longitude", VNum (-51 # 1)); ("latitude", VNum (-30 # 1)) ].

(** A complete answer of the service: one component per recognized tag. *)
Definition full_components : list component :=
  [ Component (Some ["street_number"]) (VStr "123") (VStr "123");
    Component (Some ["route"]) (VStr "Rua dos Andradas") (VStr "R. Andradas");
    Component (Some ["political"; "sublocality"; "sublocality_level_1"])
              (VStr "Centro") (VStr "Centro");
    Component (Some ["administrative_area_level_2"; "political"])
              (VStr "Porto Alegre") (VStr "Porto Alegre");
    Component (Some ["administrative_area_level_1"; "political"])
              (VStr "Rio Grande do Sul") (VStr "RS");
    Component (Some ["country"; "political"]) (VStr "Brazil") (VStr "BR");
    Component (Some ["postal_code"]) (VStr "90010-150") (VStr "90010-150") ].

(** Components none of which carries a recognized tag. *)
Definition foreign_components : list component :=
  [ Component (Some ["plus_code"]) (VStr "X2CQ+5R") (VStr "X2CQ+5R");
    Component None (VStr "somewhere") VNone ].

(** An input row, its columns in the order of the CSV file, and a
    second one elsewhere. *)
Definition porto_alegre : row :=
  [ ("latitude", VNum (-30 # 1)); ("longitude", VNum (-51 # 1));
    ("distance_km", VNum (12 # 1)); ("bearing_degrees", VNum (90 # 1)) ].

Definition canoas : row :=
  [ ("latitude", VNum (-29 # 1)); ("longitude", VNum (-51 # 1));
    ("distance_km", VNum (3 # 1)); ("bearing_degrees", VNum (180 # 1)) ].

(** A service that finds the complete address for every coordinate, one
    that finds nothing, and one whose quota ends after [n] calls. *)
Definition rooftop_service
  : list (value * value) -> value -> value -> api_reply :=
  fun _ _ _ => Reply [ Candidate (Some full_components) ].

Definition foreign_service
  : list (value * value) -> value -> value -> api_reply :=
  fun _ _ _ => Reply [ Candidate (Some foreign_components) ].

Definition empty_service
  : list (value * value) -> value -> value -> api_reply :=
  fun _ _ _ => Reply [].

Definition quota_service (n : nat)
  : list (value * value) -> value -> value -> api_reply :=
  fun calls _ _ =>
    if Nat.ltb (length calls) n
    then Reply [ Candidate (Some full_components) ]
    else Fails (ApiError "OVER_QUERY_LIMIT").

(** A service whose connection is lost after [n] calls. *)
Definition flaky_service (n : nat)
  : list (value * value) -> value -> value -> api_reply :=
  fun calls _ _ =>
    if Nat.ltb (length calls) n
    then Reply [ Candidate (Some full_components) ]
    else Fails (TransportError "connection reset").

(** Equality of two cells as the database compares them. *)
Definition value_eqb (a b : value) : bool :=
  match a, b with
  | VNone, VNone => true
  | VStr x, VStr y => String.eqb x y
  | VNum x, VNum y => Qeq_bool x y
  | _, _ => false
  end.

Definition same_place (r r' : row) : bool :=
  value_eqb (get "latitude" r) (get "latitude" r')
  && value_eqb (get "longitude" r) (get "longitude" r').

Definition duplicate_key : exn :=
  IntegrityError
    ("duplicate key value violates unique constraint"
     ++ String "010"%char "DETAIL:  Key (latitude, longitude) already exists.").

(** A database that accepts every row; one whose two tables have a unique
    key on (latitude, longitude); one where only [addresses] has it. *)
Definition accepting_db : table -> list row -> row -> option exn :=
  fun _ _ _ => None.

Definition unique_place_db : table -> list row -> row -> option exn :=
  fun _ rows r => if existsb (same_place r) rows then Some duplicate_key
                  else None.

Definition unique_address_db : table -> list row -> row -> option exn :=
  fun t rows r =>
    match t with
    | addresses_table => unique_place_db t rows r
    | coordinate_points_table => None
    end.

Definition empty_world : world := World [] [] [] [] [].

(** A batch in which the second row repeats the first. *)
Definition repeated_rows : list row := [ porto_alegre; porto_alegre; canoas ].

(** A batch of five rows. *)
Definition five_rows : list row :=
  [ porto_alegre; canoas ] ++ porto_alegre :: [ canoas; canoas ].

(** The two rows [transform_db.py] builds for [porto_alegre] and the
    complete answer, and the state once both are stored. *)
Definition porto_alegre_address : row :=
  [ ("street_number", VStr "123"); ("street_name", VStr "Rua dos Andradas");
    ("neighborhood", VStr "Centro"); ("city", VStr "Porto Alegre");
    ("state", VStr "RS"); ("country", VStr "Brazil");
    ("postal_code", VStr "90010-150");
    ("latitude", VNum (-30 # 1)); ("longitude", VNum (-51 # 1)) ].

Definition porto_alegre_stored : world :=
  World [porto_alegre] [porto_alegre_address]
        [(INFO, MsgSaved porto_alegre_address)] []
        [(VNum (-30 # 1), VNum (-51 # 1))].

End Samples.

(** * Properties *)

(** A decidable, closed proposition is settled by running its decision
    procedure. *)
Ltac by_compute :=
  lazymatch goal with
  | |- ?P => apply (bool_decide_unpack P); vm_compute; exact I
  end.

(** ** Strings in order, sorted lists *)

Lemma string_leb_trans a b c :
  String.leb a b = true -> String.leb b c = true -> String.leb a c = true.
Proof.
  unfold String.leb. revert b c.
  induction a as [|x a IH]; intros [|y b] [|z c]; simpl; try done.
  unfold Ascii.compare.
  destruct (N.compare_spec (N_of_ascii x) (N_of_ascii y)) as [Hxy|Hxy|Hxy],
           (N.compare_spec (N_of_ascii y) (N_of_ascii z)) as [Hyz|Hyz|Hyz],
           (N.compare_spec (N_of_ascii x) (N_of_ascii z)) as [Hxz|Hxz|Hxz];
    try done; try lia; try apply IH.
Qed.

#[local] Instance str_le_trans : Transitive str_le.
Proof. intros a b c. apply string_leb_trans. Qed.

#[local] Instance str_le_antisym : AntiSymm (=) str_le.
Proof. intros a b. apply String.leb_antisym. Qed.

#[local] Instance str_le_total : Total str_le.
Proof. intros a b. apply String.leb_total. Qed.

Lemma sort_Permutation l : sort l ≡ₚ l.
Proof. apply merge_sort_Permutation. Qed.

Lemma sort_Sorted l : Sorted str_le (sort l).
Proof. apply (Sorted_merge_sort str_le). Qed.

(** Two lists sort to the same list exactly when one rearranges the
    other. *)
Lemma sort_eq_iff l k : sort l = sort k <-> l ≡ₚ k.
Proof.
  split; intros H.
  - rewrite <- (sort_Permutation l), <- (sort_Permutation k), H. done.
  - apply (Sorted_unique str_le); try apply sort_Sorted.
    rewrite !sort_Permutation. done.
Qed.

(** ** The validator of transform_db.py *)

Lemma db_address_components_NoDup : NoDup TransformDb.address_components.
Proof. by_compute. Qed.

Lemma db_address_components_set :
  list_to_set TransformDb.address_components = required_fields.
Proof. unfold required_fields. simpl. set_solver. Qed.

Lemma db_is_address_valid_Permutation {V} (address : dict V) :
  TransformDb.is_address_valid address = true
  <-> keys address ≡ₚ TransformDb.address_components.
Proof.
  unfold TransformDb.is_address_valid. rewrite <- sort_eq_iff.
  case_bool_decide; split; intros; congruence.
Qed.

(** The validator of transform_db.py accepts an address exactly when its
    field names are the nine required ones, no more and no fewer. *)
Theorem db_is_address_valid_exact {V} (address : dict V) :
  dict_ok address ->
  TransformDb.is_address_valid address = true
  <-> field_names address = required_fields.
Proof.
  intros Hok. rewrite db_is_address_valid_Permutation.
  rewrite <- db_address_components_set. unfold field_names. split.
  - intros ->. done.
  - intros Heq. apply NoDup_Permutation;
      [exact Hok | apply db_address_components_NoDup |].
    intros x. rewrite <- !(elem_of_list_to_set (C := gset string)), Heq. done.
Qed.

(** Its answer does not depend on the order of the keys. *)
Theorem db_is_address_valid_order {V} (address address' : dict V) :
  address ≡ₚ address' ->
  TransformDb.is_address_valid address
  = TransformDb.is_address_valid address'.
Proof.
  intros Hp.
  assert (Hk : keys address ≡ₚ keys address') by (unfold keys; by rewrite Hp).
  destruct (TransformDb.is_address_valid address) eqn:H1;
    destruct (TransformDb.is_address_valid address') eqn:H2; try done.
  - apply db_is_address_valid_Permutation in H1.
    rewrite Hk in H1. apply db_is_address_valid_Permutation in H1. congruence.
  - apply db_is_address_valid_Permutation in H2.
    rewrite <- Hk in H2. apply db_is_address_valid_Permutation in H2.
    congruence.
Qed.

(** An address that lacks one of the nine names, or has a name outside
    them, is rejected. *)
Corollary db_missing_field_rejected {V} (address : dict V) (name : string) :
  dict_ok address ->
  name ∈ required_fields -> name ∉ field_names address ->
  TransformDb.is_address_valid address = false.
Proof.
  intros Hok Hreq Hno.
  destruct (TransformDb.is_address_valid address) eqn:Hv; [|done].
  apply (db_is_address_valid_exact _ Hok) in Hv. by rewrite Hv in Hno.
Qed.

Corollary db_extra_field_rejected {V} (address : dict V) (name : string) :
  dict_ok address ->
  name ∈ field_names address -> name ∉ required_fields ->
  TransformDb.is_address_valid address = false.
Proof.
  intros Hok Hin Hno.
  destruct (TransformDb.is_address_valid address) eqn:Hv; [|done].
  apply (db_is_address_valid_exact _ Hok) in Hv. by rewrite Hv in Hin.
Qed.

Lemma db_is_address_valid_exact_witness :
  TransformDb.is_address_valid Samples.complete_address = true
  <-> field_names Samples.complete_address = required_fields.
Proof.
  apply (db_is_address_valid_exact Samples.complete_address). by_compute.
Defined.

(** ** The validator of transform_csv_to_database.py *)

Lemma csv_all_keys_known_Forall (l : list string) :
  TransformCsv.all_keys_known l = true
  <-> Forall (fun key => key ∈ TransformCsv.address_components) l.
Proof.
  induction l as [|key l IH]; cbn [TransformCsv.all_keys_known].
  - split; [constructor | done].
  - destruct (contains key TransformCsv.address_components) eqn:Hc;
      cbn [negb].
    + rewrite IH, Forall_cons. split; [|tauto]. intros Hl. split; [|done].
      unfold contains in Hc. apply existsb_exists in Hc as (y & Hy & Hxy).
      apply String.eqb_eq in Hxy as ->. by apply list_elem_of_In.
    + split; [done|]. intros Hf. apply Forall_cons in Hf as [Hin _].
      apply list_elem_of_In in Hin. unfold contains in Hc.
      assert (Ht : existsb (String.eqb key) TransformCsv.address_components
                   = true); [|congruence].
      apply existsb_exists. exists key. split; [done|apply String.eqb_refl].
Qed.

(** What the validator of transform_csv_to_database.py computes: every
    field name of the address is one of the nine names of its own list. *)
Lemma csv_is_address_valid_subset {V} (address : dict V) :
  TransformCsv.is_address_valid address = true
  <-> forall key, key ∈ keys address ->
                  key ∈ TransformCsv.address_components.
Proof.
  unfold TransformCsv.is_address_valid.
  rewrite csv_all_keys_known_Forall, Forall_forall. done.
Qed.

(** X3: no address passes both validators: one accepted by transform_db.py
    has the key "latitude", which transform_csv_to_database.py does not
    know. *)
Lemma validators_exclusive {V} (address : dict V) :
  TransformDb.is_address_valid address = true ->
  TransformCsv.is_address_valid address = false.
Proof.
  intros Hdb. apply db_is_address_valid_Permutation in Hdb.
  destruct (TransformCsv.is_address_valid address) eqn:Hcsv; [|done].
  exfalso. rewrite csv_is_address_valid_subset in Hcsv.
  specialize (Hcsv "latitude"). rewrite Hdb in Hcsv.
  assert (Hin : "latitude" ∈ TransformCsv.address_components).
  { apply Hcsv. by_compute. }
  revert Hin. by_compute.
Qed.

(** ** Dictionaries *)

Lemma keys_cons {V} (k : string) (v : V) (d : dict V) :
  keys ((k, v) :: d) = k :: keys d.
Proof. reflexivity. Qed.

Lemma keys_setitem {V} (k : string) (v : V) (d : dict V) :
  keys (setitem k v d)
  = if bool_decide (k ∈ keys d) then keys d else keys d ++ [k].
Proof.
  induction d as [|[k' v'] d IH]; [done|].
  cbn [setitem]. destruct (String.eqb_spec k k') as [->|Hne].
  - rewrite !keys_cons. rewrite bool_decide_eq_true_2; [done|]. left.
  - rewrite !keys_cons, IH.
    destruct (decide (k ∈ keys d)) as [Hin|Hin].
    + rewrite !bool_decide_eq_true_2; [done| by right | done].
    + rewrite !bool_decide_eq_false_2; [done| |done].
      intros [?|?]%elem_of_cons; done.
Qed.

Lemma dict_ok_setitem {V} (k : string) (v : V) (d : dict V) :
  dict_ok d -> dict_ok (setitem k v d).
Proof.
  unfold dict_ok. rewrite keys_setitem. case_bool_decide; [done|].
  intros Hd. apply NoDup_app. split_and!; [done| |apply NoDup_singleton].
  intros x Hx Hx'. apply list_elem_of_singleton in Hx' as ->. done.
Qed.

Lemma field_names_setitem {V} (k : string) (v : V) (d : dict V) :
  field_names (setitem k v d) = {[k]} ∪ field_names d.
Proof.
  unfold field_names. rewrite keys_setitem. case_bool_decide.
  - apply set_eq. intros x. rewrite elem_of_union, elem_of_singleton,
      !elem_of_list_to_set. split; [tauto|]. intros [->|?]; done.
  - rewrite list_to_set_app_L. simpl. apply set_eq. intros x.
    rewrite !elem_of_union, elem_of_empty, elem_of_singleton. tauto.
Qed.

Lemma get_setitem_eq (k : string) (v : value) (d : dict value) :
  get k (setitem k v d) = v.
Proof.
  induction d as [|[k' v'] d IH]; simpl.
  - by rewrite String.eqb_refl.
  - destruct (String.eqb_spec k k') as [->|Hne]; simpl.
    + by rewrite String.eqb_refl.
    + destruct (String.eqb_spec k k'); done.
Qed.

Lemma get_setitem_ne (k k' : string) (v : value) (d : dict value) :
  k <> k' -> get k (setitem k' v d) = get k d.
Proof.
  intros Hne. induction d as [|[k'' v''] d IH]; simpl.
  - destruct (String.eqb_spec k k'); done.
  - destruct (String.eqb_spec k' k'') as [->|Hne']; simpl.
    + destruct (String.eqb_spec k k''); done.
    + destruct (String.eqb_spec k k''); done.
Qed.

Lemma truthy_field_names {V} (d : dict V) :
  truthy d = false <-> field_names d = ∅.
Proof.
  destruct d as [|[k v] d]; simpl; split; try done.
  unfold field_names. rewrite keys_cons. cbn [list_to_set]. intros He.
  assert (Hk : k ∈ (∅ : gset string)).
  { rewrite <- He. apply elem_of_union. left. by apply elem_of_singleton. }
  by apply elem_of_empty in Hk.
Qed.

(** ** The extractor *)

(** The two files hold the same extractor. *)
Lemma extractors_agree :
  TransformCsv.get_address_from_address_components
  = TransformDb.get_address_from_address_components.
Proof. reflexivity. Qed.

Lemma has_type_carries (tag : string) (c : component) :
  TransformDb.has_type tag (types c) = true <-> carries tag c.
Proof.
  unfold carries, TransformDb.has_type, contains.
  destruct (types c) as [tags|]; [|done].
  rewrite existsb_exists. split.
  - intros (y & Hy & ->%String.eqb_eq). by apply list_elem_of_In.
  - intros Hin. exists tag. split; [by apply list_elem_of_In|].
    apply String.eqb_refl.
Qed.

Lemma field_names_cond_update (b : bool) k (v : value) (a : dict value) :
  field_names (if b then update [(k, v)] a else a)
  = field_names a ∪ (if b then {[k]} else ∅).
Proof.
  destruct b.
  - unfold update. cbn [fold_left fst snd]. rewrite field_names_setitem.
    apply (comm_L (∪)).
  - by rewrite (right_id_L ∅ (∪)).
Qed.

Lemma dict_ok_cond_update (b : bool) k (v : value) (a : dict value) :
  dict_ok a -> dict_ok (if b then update [(k, v)] a else a).
Proof. destruct b; [|done]. apply dict_ok_setitem. Qed.

Lemma field_names_extract_component (a : dict value) (c : component) :
  field_names (TransformDb.extract_component a c)
  = field_names a ∪ fields_of c.
Proof.
  unfold TransformDb.extract_component, fields_of. cbv zeta.
  rewrite !field_names_cond_update, !(assoc_L (∪)). done.
Qed.

Lemma dict_ok_extract_component (a : dict value) (c : component) :
  dict_ok a -> dict_ok (TransformDb.extract_component a c).
Proof.
  intros Ha. unfold TransformDb.extract_component. cbv zeta.
  repeat apply dict_ok_cond_update. done.
Qed.

Lemma field_names_extract (cs : list component) (a : dict value) :
  field_names (fold_left TransformDb.extract_component cs a)
  = field_names a ∪ ⋃ (fields_of <$> cs).
Proof.
  revert a. induction cs as [|c cs IH]; intros a; simpl.
  - by rewrite (right_id_L ∅ (∪)).
  - rewrite IH, field_names_extract_component, (assoc_L (∪)). done.
Qed.

Lemma dict_ok_extract (cs : list component) (a : dict value) :
  dict_ok a -> dict_ok (fold_left TransformDb.extract_component cs a).
Proof.
  revert a. induction cs as [|c cs IH]; intros a Ha; simpl; [done|].
  by apply IH, dict_ok_extract_component.
Qed.

Lemma elem_of_cond_singleton (b : bool) (k x : string) :
  x ∈ (if b then {[k]} else ∅ : gset string) <-> x = k /\ b = true.
Proof.
  destruct b.
  - rewrite elem_of_singleton. tauto.
  - rewrite elem_of_empty. split; [done|]. intros [_ ?]. done.
Qed.

(** Which field comes from which tag. *)
Lemma fields_of_spec (c : component) (x : string) :
  x ∈ fields_of c
  <-> (x = "country" /\ carries "country" c)
      \/ (x = "state" /\ carries "administrative_area_level_1" c)
      \/ (x = "city" /\ carries "administrative_area_level_2" c)
      \/ (x = "neighborhood" /\ carries "sublocality_level_1" c)
      \/ (x = "street_number" /\ carries "street_number" c)
      \/ (x = "street_name" /\ carries "route" c)
      \/ (x = "postal_code" /\ carries "postal_code" c).
Proof.
  unfold fields_of. rewrite !elem_of_union, !elem_of_cond_singleton,
    !has_type_carries. tauto.
Qed.

Lemma elem_of_extracted_fields (x : string) :
  x ∈ extracted_fields
  <-> x = "country" \/ x = "state" \/ x = "city" \/ x = "neighborhood"
      \/ x = "street_number" \/ x = "street_name" \/ x = "postal_code".
Proof.
  unfold extracted_fields. rewrite !elem_of_union, !elem_of_singleton. tauto.
Qed.

Lemma elem_of_required_fields (x : string) :
  x ∈ required_fields
  <-> x ∈ extracted_fields \/ x = "latitude" \/ x = "longitude".
Proof.
  rewrite elem_of_extracted_fields. unfold required_fields.
  rewrite !elem_of_union, !elem_of_singleton. tauto.
Qed.

(** Whatever the components, only the seven fields are filled. *)
Lemma extracted_fields_bound (cs : list component) :
  ⋃ (fields_of <$> cs) ⊆ extracted_fields.
Proof.
  intros x (X & (c & -> & Hc)%list_elem_of_fmap & Hx)%elem_of_union_list.
  apply elem_of_extracted_fields. apply fields_of_spec in Hx. tauto.
Qed.

(** When every recognized tag is carried by some component, all seven are. *)
Lemma extracted_fields_complete (cs : list component) :
  (forall tag, tag ∈ recognized_tags -> exists c, c ∈ cs /\ carries tag c) ->
  ⋃ (fields_of <$> cs) = extracted_fields.
Proof.
  intros Hall. apply set_eq. intros x. split.
  - apply extracted_fields_bound.
  - intros Hx. apply elem_of_extracted_fields in Hx.
    assert (Hfind : forall tag, tag ∈ recognized_tags ->
               (forall c, carries tag c -> x ∈ fields_of c) ->
               x ∈ ⋃ (fields_of <$> cs)).
    { intros tag Htag Hf. destruct (Hall tag Htag) as (c & Hc & Hcar).
      apply elem_of_union_list. exists (fields_of c). split.
      - apply list_elem_of_fmap. by exists c.
      - by apply Hf. }
    unfold recognized_tags in Hfind.
    destruct Hx as [->|[->|[->|[->|[->|[->| ->]]]]]].
    + apply (Hfind "country"); [by_compute|].
      intros c Hc. apply fields_of_spec. tauto.
    + apply (Hfind "administrative_area_level_1"); [by_compute|].
      intros c Hc. apply fields_of_spec. tauto.
    + apply (Hfind "administrative_area_level_2"); [by_compute|].
      intros c Hc. apply fields_of_spec. tauto.
    + apply (Hfind "sublocality_level_1"); [by_compute|].
      intros c Hc. apply fields_of_spec. tauto.
    + apply (Hfind "street_number"); [by_compute|].
      intros c Hc. apply fields_of_spec. tauto.
    + apply (Hfind "route"); [by_compute|].
      intros c Hc. apply fields_of_spec. tauto.
    + apply (Hfind "postal_code"); [by_compute|].
      intros c Hc. apply fields_of_spec. tauto.
Qed.

Lemma extract_component_foreign (a : dict value) (c : component) :
  (forall tag, tag ∈ recognized_tags -> ~ carries tag c) ->
  TransformDb.extract_component a c = a.
Proof.
  intros Hno.
  assert (Hf : forall tag, tag ∈ recognized_tags ->
                 TransformDb.has_type tag (types c) = false).
  { intros tag Htag. destruct (TransformDb.has_type tag (types c)) eqn:Hb;
      [|done]. apply has_type_carries in Hb. by apply Hno in Hb. }
  unfold TransformDb.extract_component. cbv zeta.
  rewrite !Hf by by_compute. done.
Qed.

Lemma extract_foreign (cs : list component) (a : dict value) :
  (forall c tag, c ∈ cs -> tag ∈ recognized_tags -> ~ carries tag c) ->
  fold_left TransformDb.extract_component cs a = a.
Proof.
  induction cs as [|c cs IH]; intros Hno; simpl; [done|].
  rewrite extract_component_foreign.
  - apply IH. intros c' tag Hc'. apply Hno. by right.
  - intros tag. apply Hno. left.
Qed.

(** Components without a recognized tag leave nothing to return. *)
Lemma extract_nothing (cs : list component) :
  (forall c tag, c ∈ cs -> tag ∈ recognized_tags -> ~ carries tag c) ->
  TransformDb.get_address_from_address_components cs = None.
Proof.
  intros Hno. unfold TransformDb.get_address_from_address_components.
  by rewrite extract_foreign.
Qed.

(** C8: a single component tagged ["street_number"] with display name
    "123" is extracted, by either file, to the map
    {street_number: "123"}, and no other field is assigned. *)
Theorem extract_single_street_number (short : value) :
  let components :=
    [ Component (Some ["street_number"]) (VStr "123") short ] in
  TransformDb.get_address_from_address_components components
  = Some [("street_number", VStr "123")]
  /\ TransformCsv.get_address_from_address_components components
     = Some [("street_number", VStr "123")].
Proof. split; reflexivity. Qed.

(** The extracted address is a well-formed dictionary over the seven
    fields. *)
Lemma extracted_address_fields (cs : list component) (address : dict value) :
  TransformDb.get_address_from_address_components cs = Some address ->
  dict_ok address /\ field_names address = ⋃ (fields_of <$> cs).
Proof.
  unfold TransformDb.get_address_from_address_components.
  destruct (truthy _); [|done]. intros [= <-]. split.
  - apply dict_ok_extract. apply NoDup_nil_2.
  - rewrite field_names_extract. unfold field_names at 1. simpl.
    by rewrite (left_id_L ∅ (∪)).
Qed.

(** C5: when the component list carries all seven recognized tags, the
    extractor returns an address which, once latitude and longitude are
    merged in, the validator of transform_db.py accepts. *)
Theorem full_address_validates
  (cs : list component) (latitude longitude : value) :
  (forall tag, tag ∈ recognized_tags -> exists c, c ∈ cs /\ carries tag c) ->
  exists address,
    TransformDb.get_address_from_address_components cs = Some address
    /\ TransformDb.is_address_valid
         (update [("latitude", latitude); ("longitude", longitude)] address)
       = true.
Proof.
  intros Hall. apply extracted_fields_complete in Hall.
  destruct (TransformDb.get_address_from_address_components cs)
    as [address|] eqn:Hget.
  - exists address. split; [done|].
    apply extracted_address_fields in Hget as [Hok Hnames].
    unfold update. cbn [fold_left fst snd].
    apply db_is_address_valid_exact.
    + by do 2 apply dict_ok_setitem.
    + rewrite !field_names_setitem, Hnames, Hall. apply set_eq. intros x.
      rewrite elem_of_required_fields, !elem_of_union, !elem_of_singleton.
      tauto.
  - exfalso. unfold TransformDb.get_address_from_address_components in Hget.
    destruct (truthy _) eqn:Ht; [done|].
    apply truthy_field_names in Ht. rewrite field_names_extract in Ht.
    rewrite Hall in Ht.
    assert (Hin : "country" ∈ (∅ : gset string)).
    { rewrite <- Ht. apply elem_of_union. right.
      apply elem_of_extracted_fields. tauto. }
    by apply elem_of_empty in Hin.
Qed.

Lemma full_components_carry_all (tag : string) :
  tag ∈ recognized_tags ->
  exists c, c ∈ Samples.full_components /\ carries tag c.
Proof.
  pose (at_index := fun i => list_elem_of_lookup_2 Samples.full_components i).
  unfold recognized_tags. rewrite !elem_of_cons, elem_of_nil.
  intros [->|[->|[->|[->|[->|[->|[->|[]]]]]]]]; eexists.
  - split; [by apply (at_index 5)|]. unfold carries; simpl; by_compute.
  - split; [by apply (at_index 4)|]. unfold carries; simpl; by_compute.
  - split; [by apply (at_index 3)|]. unfold carries; simpl; by_compute.
  - split; [by apply (at_index 2)|]. unfold carries; simpl; by_compute.
  - split; [by apply (at_index 0)|]. unfold carries; simpl; by_compute.
  - split; [by apply (at_index 1)|]. unfold carries; simpl; by_compute.
  - split; [by apply (at_index 6)|]. unfold carries; simpl; by_compute.
Qed.

Lemma full_address_validates_witness :
  exists address,
    TransformDb.get_address_from_address_components Samples.full_components
    = Some address
    /\ TransformDb.is_address_valid
         (update [("latitude", VNum (-30 # 1)); ("longitude", VNum (-51 # 1))]
                 address)
       = true.
Proof.
  apply (full_address_validates Samples.full_components).
  exact full_components_carry_all.
Defined.

(** ** Running the pipeline *)

Lemma getitem_Some (r : row) (column : string) (v : value) (w : world) :
  lookup column r = Some v -> getitem r column w = Done v w.
Proof. unfold getitem. by intros ->. Qed.

Lemma bind_Done {A B} (m : M A) (k : A -> M B) (w w' : world) (a : A) :
  m w = Done a w' -> bind m k w = k a w'.
Proof. unfold bind. by intros ->. Qed.

Lemma db_get_address_reply E latitude longitude results (w : world) :
  reverse_geocode E (api_calls w) latitude longitude = Reply results ->
  TransformDb.get_address_from_coordinates E latitude longitude w
  = Done results (add_call (latitude, longitude) w).
Proof. unfold TransformDb.get_address_from_coordinates. by intros ->. Qed.

Lemma csv_get_address_reply E latitude longitude results (w : world) :
  reverse_geocode E (api_calls w) latitude longitude = Reply results ->
  TransformCsv.get_address_from_coordinates E latitude longitude w
  = Done results (add_call (latitude, longitude) w).
Proof. unfold TransformCsv.get_address_from_coordinates. by intros ->. Qed.

(** C7: when no component of the answer carries a recognized tag, the
    extractor returns nothing, and the pipeline of transform_db.py ends
    the row normally: no error, no insert into either table, nothing but
    the call to the service recorded; the batch goes on with the next
    row. *)
Theorem unrecognized_components_skip
  E (coordinate : row) (rest : list row) (w : world)
  (latitude longitude : value) (result_0 : candidate)
  (others : list candidate) (cs : list component) :
  lookup "latitude" coordinate = Some latitude ->
  lookup "longitude" coordinate = Some longitude ->
  reverse_geocode E (api_calls w) latitude longitude
  = Reply (result_0 :: others) ->
  cand_address_components result_0 = Some cs ->
  (forall c tag, c ∈ cs -> tag ∈ recognized_tags -> ~ carries tag c) ->
  let w' := add_call (latitude, longitude) w in
  TransformDb.get_address_from_address_components cs = None
  /\ TransformDb.process_row E coordinate w = Done tt w'
  /\ coordinate_points w' = coordinate_points w
  /\ addresses w' = addresses w
  /\ TransformDb.save_dataset_coordinates_to_database E (coordinate :: rest) w
     = TransformDb.save_dataset_coordinates_to_database E rest w'.
Proof.
  intros Hlat Hlon Hreply Hcs Hno w'.
  assert (Hnone := extract_nothing cs Hno).
  assert (Hrow : TransformDb.process_row E coordinate w = Done tt w').
  { unfold TransformDb.process_row.
    rewrite (bind_Done _ _ _ _ _ (getitem_Some _ _ _ _ Hlat)).
    rewrite (bind_Done _ _ _ _ _ (getitem_Some _ _ _ _ Hlon)).
    rewrite (bind_Done _ _ _ _ _ (db_get_address_reply _ _ _ _ _ Hreply)).
    rewrite Hcs. cbn [default from_option id]. destruct (truthy cs); [|reflexivity].
    rewrite Hnone. reflexivity. }
  repeat split; try done.
  cbn [TransformDb.save_dataset_coordinates_to_database].
  by rewrite (bind_Done _ _ _ _ _ Hrow).
Qed.

Lemma foreign_components_foreign (c : component) (tag : string) :
  c ∈ Samples.foreign_components -> tag ∈ recognized_tags -> ~ carries tag c.
Proof.
  unfold Samples.foreign_components, recognized_tags, carries.
  rewrite !elem_of_cons, !elem_of_nil.
  intros [->|[->|[]]]; cbn [types]; [|tauto].
  intros Htag Hin. apply list_elem_of_singleton in Hin as ->.
  repeat (destruct Htag as [Htag|Htag]; [discriminate Htag|]). done.
Qed.

Lemma unrecognized_components_skip_witness :
  let E := Env Samples.foreign_service Samples.accepting_db true in
  let w' := add_call (VNum (-30 # 1), VNum (-51 # 1)) Samples.empty_world in
  TransformDb.get_address_from_address_components Samples.foreign_components
  = None
  /\ TransformDb.process_row E Samples.porto_alegre Samples.empty_world
     = Done tt w'
  /\ coordinate_points w' = []
  /\ addresses w' = []
  /\ TransformDb.save_dataset_coordinates_to_database E
       [Samples.porto_alegre; Samples.canoas] Samples.empty_world
     = TransformDb.save_dataset_coordinates_to_database E
         [Samples.canoas] w'.
Proof.
  intros E.
  apply (unrecognized_components_skip E Samples.porto_alegre [Samples.canoas]
           Samples.empty_world (VNum (-30 # 1)) (VNum (-51 # 1))
           (Candidate (Some Samples.foreign_components)) []
           Samples.foreign_components);
    [reflexivity | reflexivity | reflexivity | reflexivity |].
  exact foreign_components_foreign.
Defined.

(** ** Saving one pair (transform_db.py) *)

(** [save_to_database] always returns; this is the state it leaves. *)
Lemma db_save_to_database_eq E (coordinate address : row) (w : world) :
  TransformDb.save_to_database E coordinate address w
  = Done tt
      match db_refuses E coordinate_points_table (coordinate_points w)
                       coordinate with
      | Some e => reported E CRITICAL (failure_message e) w
      | None =>
          let w1 := add_row coordinate_points_table coordinate w in
          match db_refuses E addresses_table (addresses w) address with
          | Some e => reported E CRITICAL (failure_message e) w1
          | None =>
              reported E INFO (MsgSaved address)
                       (add_row addresses_table address w1)
          end
      end.
Proof.
  unfold TransformDb.save_to_database, try_except, bind, insert, reported.
  cbn [rows_of].
  destruct (db_refuses E coordinate_points_table _ _) as [e|].
  - destruct e, (module_is_main E); reflexivity.
  - cbn [add_row addresses coordinate_points].
    destruct (db_refuses E addresses_table _ _) as [e|].
    + destruct e, (module_is_main E); reflexivity.
    + destruct (module_is_main E); reflexivity.
Qed.

Lemma log_reported E (l : level) (m : message) (w : world) :
  log (reported E l m w) = log w ++ [(l, m)].
Proof. unfold reported. by destruct (module_is_main E). Qed.

Lemma coordinate_points_reported E (l : level) (m : message) (w : world) :
  coordinate_points (reported E l m w) = coordinate_points w.
Proof. unfold reported. by destruct (module_is_main E). Qed.

Lemma addresses_reported E (l : level) (m : message) (w : world) :
  addresses (reported E l m w) = addresses w.
Proof. unfold reported. by destruct (module_is_main E). Qed.

(** C9: no transaction spans the two inserts of [save_to_database].
    Whenever the database takes the coordinate and refuses the address,
    the operation returns with the coordinate row stored, no address row
    added, and the failure logged at CRITICAL: the coordinate insert is not
    undone.  The witness below is such an execution. *)
Theorem partial_persistence E (coordinate address : row) (w : world) (e : exn) :
  db_refuses E coordinate_points_table (coordinate_points w) coordinate
  = None ->
  db_refuses E addresses_table (addresses w) address = Some e ->
  exists w',
    TransformDb.save_to_database E coordinate address w = Done tt w'
    /\ coordinate_points w' = coordinate_points w ++ [coordinate]
    /\ addresses w' = addresses w
    /\ log w' = log w ++ [(CRITICAL, failure_message e)].
Proof.
  intros Hc Ha. eexists. split.
  - rewrite db_save_to_database_eq, Hc. cbv zeta. rewrite Ha. reflexivity.
  - rewrite coordinate_points_reported, addresses_reported, log_reported.
    done.
Qed.

Lemma partial_persistence_witness :
  let E := Env Samples.rooftop_service Samples.unique_address_db true in
  exists w',
    TransformDb.save_to_database E Samples.porto_alegre
      Samples.porto_alegre_address Samples.porto_alegre_stored = Done tt w'
    /\ coordinate_points w' = [Samples.porto_alegre; Samples.porto_alegre]
    /\ addresses w' = [Samples.porto_alegre_address]
    /\ log w'
       = [ (INFO, MsgSaved Samples.porto_alegre_address);
           (CRITICAL, failure_message Samples.duplicate_key) ].
Proof.
  intros E.
  apply (partial_persistence E Samples.porto_alegre
           Samples.porto_alegre_address Samples.porto_alegre_stored
           Samples.duplicate_key); reflexivity.
Defined.

(** ** Rows for which the service finds nothing *)

Lemma count_level_add_log (l l' : level) (m : message) (w : world) :
  count_level l (add_log l' m w)
  = count_level l w + (if level_eqb l' l then 1 else 0).
Proof.
  unfold count_level, add_log. cbn [log].
  rewrite filter_app, length_app. f_equal.
  rewrite filter_cons, filter_nil. cbn [fst].
  destruct (level_eqb l' l); by case_decide.
Qed.

Lemma count_level_reported E (l l' : level) (m : message) (w : world) :
  count_level l (reported E l' m w)
  = count_level l w + (if level_eqb l' l then 1 else 0).
Proof.
  unfold reported. rewrite count_level_add_log.
  by destruct (module_is_main E).
Qed.

Lemma count_level_add_call (l : level) (c : value * value) (w : world) :
  count_level l (add_call c w) = count_level l w.
Proof. reflexivity. Qed.

Lemma count_level_add_row (l : level) (t : table) (r : row) (w : world) :
  count_level l (add_row t r w) = count_level l w.
Proof. by destruct t. Qed.

Lemma count_level_add_stdout (l : level) (m : message) (w : world) :
  count_level l (add_stdout m w) = count_level l w.
Proof. reflexivity. Qed.

(** Case analysis along the branches of [process_row]. *)
Ltac pipeline_case :=
  match goal with
  | |- context [match lookup ?k ?r with _ => _ end] =>
      destruct (lookup k r) eqn:?
  | |- context [match nth_error ?l ?i with _ => _ end] =>
      destruct (nth_error l i) eqn:?
  | |- context [match reverse_geocode ?E ?c ?a ?b with _ => _ end] =>
      destruct (reverse_geocode E c a b) as [[|? ?]|[]] eqn:?
  | |- context [if truthy ?l then _ else _] => destruct (truthy l) eqn:?
  | |- context [match TransformDb.get_address_from_address_components ?l
                with _ => _ end] =>
      destruct (TransformDb.get_address_from_address_components l) eqn:?
  | |- context [match TransformCsv.get_address_from_address_components ?l
                with _ => _ end] =>
      destruct (TransformCsv.get_address_from_address_components l) eqn:?
  | |- context [if TransformDb.is_address_valid ?a then _ else _] =>
      destruct (TransformDb.is_address_valid a) eqn:?
  | |- context [if TransformCsv.is_address_valid ?a then _ else _] =>
      destruct (TransformCsv.is_address_valid a) eqn:?
  | |- context [match db_refuses ?E ?t ?rows ?r with _ => _ end] =>
      destruct (db_refuses E t rows r) eqn:?
  | |- context [module_is_main ?E] => destruct (module_is_main E) eqn:?
  end.

Ltac tally :=
  repeat first
    [ rewrite count_level_reported | rewrite count_level_add_log
    | rewrite count_level_add_row | rewrite count_level_add_stdout
    | rewrite count_level_add_call ];
  cbn [level_eqb]; lia.

(** C6, as amended: a row for which the service returns no candidate is
    skipped by both scripts: the turn of the loop ends normally, nothing is
    inserted into [coordinate_points] or [addresses], and one record with
    the empty result is logged at WARNING. *)
Theorem not_found_row_logged
  E (coordinate : row) (w : world) (latitude longitude : value) :
  lookup "latitude" coordinate = Some latitude ->
  lookup "longitude" coordinate = Some longitude ->
  reverse_geocode E (api_calls w) latitude longitude = Reply [] ->
  (exists w',
     TransformDb.process_row E coordinate w = Done tt w'
     /\ coordinate_points w' = coordinate_points w
     /\ addresses w' = addresses w
     /\ log w' = log w ++ [(WARNING, MsgNotSaved [])])
  /\ (exists w',
        TransformCsv.process_row E coordinate w = Done tt w'
        /\ coordinate_points w' = coordinate_points w
        /\ addresses w' = addresses w
        /\ log w' = log w ++ [(WARNING, MsgNotSaved [])]).
Proof.
  intros Hlat Hlon Hreply. split.
  - exists (reported E WARNING (MsgNotSaved [])
                     (add_call (latitude, longitude) w)).
    split.
    + unfold TransformDb.process_row.
      rewrite (bind_Done _ _ _ _ _ (getitem_Some _ _ _ _ Hlat)).
      rewrite (bind_Done _ _ _ _ _ (getitem_Some _ _ _ _ Hlon)).
      rewrite (bind_Done _ _ _ _ _ (db_get_address_reply _ _ _ _ _ Hreply)).
      unfold reported, bind. by destruct (module_is_main E).
    + by rewrite coordinate_points_reported, addresses_reported, log_reported.
  - exists (add_log WARNING (MsgNotSaved [])
                    (add_call (latitude, longitude) w)).
    split; [|done].
    unfold TransformCsv.process_row. cbv zeta.
    rewrite (bind_Done _ _ _ _ _ (getitem_Some _ _ _ _ Hlat)).
    rewrite (bind_Done _ _ _ _ _ (getitem_Some _ _ _ _ Hlon)).
    rewrite (bind_Done _ _ _ _ _ (csv_get_address_reply _ _ _ _ _ Hreply)).
    reflexivity.
Qed.

Lemma not_found_row_logged_witness :
  let E := Env Samples.empty_service Samples.accepting_db true in
  (exists w',
     TransformDb.process_row E Samples.porto_alegre Samples.empty_world
     = Done tt w'
     /\ coordinate_points w' = []
     /\ addresses w' = []
     /\ log w' = [(WARNING, MsgNotSaved [])])
  /\ (exists w',
        TransformCsv.process_row E Samples.porto_alegre Samples.empty_world
        = Done tt w'
        /\ coordinate_points w' = []
        /\ addresses w' = []
        /\ log w' = [(WARNING, MsgNotSaved [])]).
Proof.
  intros E.
  apply (not_found_row_logged E Samples.porto_alegre Samples.empty_world
           (VNum (-30 # 1)) (VNum (-51 # 1))); reflexivity.
Defined.

(** C6, counterexample: the scripts keep no count of such rows.  A run
    over a batch made of one row for which the service finds nothing hands
    back what a run over no rows hands back, Python's [None]; whatever
    count is read off the result, it is the same in both and so not one
    more. *)
Lemma not_found_count_absent :
  let E := Env Samples.empty_service Samples.accepting_db true in
  let found_nothing := [Samples.porto_alegre] in
  (returned
     (TransformDb.save_dataset_coordinates_to_database E found_nothing
        Samples.empty_world) = Some tt
   /\ returned
        (TransformDb.save_dataset_coordinates_to_database E []
           Samples.empty_world) = Some tt
   /\ returned
        (TransformCsv.save_dataset_coordinates_to_database E found_nothing
           Samples.empty_world) = Some tt
   /\ returned
        (TransformCsv.save_dataset_coordinates_to_database E []
           Samples.empty_world) = Some tt)
  /\ (forall count : option unit -> nat,
        count
          (returned
             (TransformDb.save_dataset_coordinates_to_database E
                found_nothing Samples.empty_world))
        <> S (count
                (returned
                   (TransformDb.save_dataset_coordinates_to_database E []
                      Samples.empty_world)))
        /\ count
             (returned
                (TransformCsv.save_dataset_coordinates_to_database E
                   found_nothing Samples.empty_world))
           <> S (count
                   (returned
                      (TransformCsv.save_dataset_coordinates_to_database E []
                         Samples.empty_world)))).
Proof.
  intros E found_nothing. split; [by split_and!|].
  intros count.
  change (count (Some tt) <> S (count (Some tt))
          /\ count (Some tt) <> S (count (Some tt))).
  lia.
Qed.

(** The WARNING records count the rows for which the service found nothing,
    and nothing else: a turn of the loop adds one exactly for such a row. *)
Lemma db_not_found_tally E (coordinate : row) (w : world) :
  skipped_not_found (final_world (TransformDb.process_row E coordinate w))
  = skipped_not_found w + (if finds_nothing E coordinate w then 1 else 0).
Proof.
  unfold skipped_not_found, finds_nothing, TransformDb.process_row,
    TransformDb.get_address_from_coordinates, bind, getitem, ret, raise,
    logger, print, sys_exit.
  repeat (pipeline_case; cbn [final_world negb]);
    rewrite ?db_save_to_database_eq; cbn [final_world];
    repeat (pipeline_case; cbn [final_world negb]); tally.
Qed.

Lemma csv_not_found_tally E (coordinate : row) (w : world) :
  skipped_not_found (final_world (TransformCsv.process_row E coordinate w))
  = skipped_not_found w + (if finds_nothing E coordinate w then 1 else 0).
Proof.
  unfold skipped_not_found, finds_nothing, TransformCsv.process_row,
    TransformCsv.get_address_from_coordinates, bind, getitem, values_at,
    insert, ret, raise, logger, print, sys_exit.
  repeat (pipeline_case; cbn [final_world negb rows_of]); tally.
Qed.

(** ** A failure of the service *)

Lemma db_batch_app E (pre rest : list row) (w : world) :
  TransformDb.save_dataset_coordinates_to_database E (pre ++ rest) w
  = bind (TransformDb.save_dataset_coordinates_to_database E pre)
         (fun _ => TransformDb.save_dataset_coordinates_to_database E rest) w.
Proof.
  revert w. induction pre as [|r pre IH]; intros w; [done|].
  cbn [app TransformDb.save_dataset_coordinates_to_database].
  unfold bind in *. by destruct (TransformDb.process_row E r w).
Qed.

Lemma csv_batch_app E (pre rest : list row) (w : world) :
  TransformCsv.save_dataset_coordinates_to_database E (pre ++ rest) w
  = bind (TransformCsv.save_dataset_coordinates_to_database E pre)
         (fun _ => TransformCsv.save_dataset_coordinates_to_database E rest) w.
Proof.
  revert w. induction pre as [|r pre IH]; intros w; [done|].
  cbn [app TransformCsv.save_dataset_coordinates_to_database].
  unfold bind in *. by destruct (TransformCsv.process_row E r w).
Qed.

Lemma db_process_row_api_failure
  E (coordinate : row) (w : world) (latitude longitude : value) message :
  lookup "latitude" coordinate = Some latitude ->
  lookup "longitude" coordinate = Some longitude ->
  reverse_geocode E (api_calls w) latitude longitude
  = Fails (ApiError message) ->
  TransformDb.process_row E coordinate w
  = Exited 1 (add_log CRITICAL (MsgText message)
                      (add_call (latitude, longitude) w)).
Proof.
  intros Hlat Hlon Hfail. unfold TransformDb.process_row.
  rewrite (bind_Done _ _ _ _ _ (getitem_Some _ _ _ _ Hlat)).
  rewrite (bind_Done _ _ _ _ _ (getitem_Some _ _ _ _ Hlon)).
  unfold bind, TransformDb.get_address_from_coordinates.
  by rewrite Hfail.
Qed.

Lemma csv_process_row_api_failure
  E (coordinate : row) (w : world) (latitude longitude : value) message :
  lookup "latitude" coordinate = Some latitude ->
  lookup "longitude" coordinate = Some longitude ->
  reverse_geocode E (api_calls w) latitude longitude
  = Fails (ApiError message) ->
  TransformCsv.process_row E coordinate w
  = Exited 1 (add_log CRITICAL (MsgText message)
                      (add_call (latitude, longitude) w)).
Proof.
  intros Hlat Hlon Hfail. unfold TransformCsv.process_row. cbv zeta.
  rewrite (bind_Done _ _ _ _ _ (getitem_Some _ _ _ _ Hlat)).
  rewrite (bind_Done _ _ _ _ _ (getitem_Some _ _ _ _ Hlon)).
  unfold bind, TransformCsv.get_address_from_coordinates.
  by rewrite Hfail.
Qed.

(** C4: when the call to the service fails on a row, either script ends
    there, with a non-zero exit status.  The rows before it have been
    processed to their end (the final state is the state [w1] they left,
    plus the failing call), and whatever rows follow are not touched: no
    call to the service and no insert is made for them.  An [ApiError] is
    logged at CRITICAL and ends the run by [SystemExit(1)]; any other
    exception of the client (a transport error, a timeout) is not caught
    and ends the run as it is. *)
Theorem api_failure_aborts
  E (pre : list row) (coordinate : row) (post : list row) (w : world)
  (latitude longitude : value) (e : exn) :
  lookup "latitude" coordinate = Some latitude ->
  lookup "longitude" coordinate = Some longitude ->
  (forall w1,
     TransformDb.save_dataset_coordinates_to_database E pre w = Done tt w1 ->
     reverse_geocode E (api_calls w1) latitude longitude = Fails e ->
     exists o w',
       TransformDb.save_dataset_coordinates_to_database E
         (pre ++ coordinate :: post) w = o
       /\ final_world o = w'
       /\ exit_status o = 1%Z
       /\ api_calls w' = api_calls w1 ++ [(latitude, longitude)]
       /\ coordinate_points w' = coordinate_points w1
       /\ addresses w' = addresses w1
       /\ (forall message, e = ApiError message ->
            o = Exited 1 (add_log CRITICAL (MsgText message)
                                  (add_call (latitude, longitude) w1)))
       /\ ((forall message, e <> ApiError message) ->
           o = Raised e (add_call (latitude, longitude) w1)))
  /\ (forall w1,
        TransformCsv.save_dataset_coordinates_to_database E pre w
        = Done tt w1 ->
        reverse_geocode E (api_calls w1) latitude longitude = Fails e ->
        exists o w',
          TransformCsv.save_dataset_coordinates_to_database E
            (pre ++ coordinate :: post) w = o
          /\ final_world o = w'
          /\ exit_status o = 1%Z
          /\ api_calls w' = api_calls w1 ++ [(latitude, longitude)]
          /\ coordinate_points w' = coordinate_points w1
          /\ addresses w' = addresses w1
          /\ (forall message, e = ApiError message ->
               o = Exited 1 (add_log CRITICAL (MsgText message)
                                     (add_call (latitude, longitude) w1)))
          /\ ((forall message, e <> ApiError message) ->
              o = Raised e (add_call (latitude, longitude) w1))).
Proof.
  intros Hlat Hlon. split; intros w1 Hpre Hfail.
  - rewrite db_batch_app, (bind_Done _ _ _ _ _ Hpre).
    cbn [TransformDb.save_dataset_coordinates_to_database].
    unfold bind at 1, TransformDb.process_row.
    rewrite (bind_Done _ _ _ _ _ (getitem_Some _ _ _ _ Hlat)).
    rewrite (bind_Done _ _ _ _ _ (getitem_Some _ _ _ _ Hlon)).
    unfold bind, TransformDb.get_address_from_coordinates. rewrite Hfail.
    destruct e as [| |m| | |]; do 2 eexists;
      (split; [reflexivity|]); (split; [reflexivity|]);
      (split; [reflexivity|]); (split; [reflexivity|]);
      (split; [reflexivity|]); (split; [reflexivity|]);
      (split; [intros m' Hm; by inversion Hm|]);
      first [ intros _; reflexivity | intros Hm; by destruct (Hm m) ].
  - rewrite csv_batch_app, (bind_Done _ _ _ _ _ Hpre).
    cbn [TransformCsv.save_dataset_coordinates_to_database].
    unfold bind at 1, TransformCsv.process_row. cbv zeta.
    rewrite (bind_Done _ _ _ _ _ (getitem_Some _ _ _ _ Hlat)).
    rewrite (bind_Done _ _ _ _ _ (getitem_Some _ _ _ _ Hlon)).
    unfold bind, TransformCsv.get_address_from_coordinates. rewrite Hfail.
    destruct e as [| |m| | |]; do 2 eexists;
      (split; [reflexivity|]); (split; [reflexivity|]);
      (split; [reflexivity|]); (split; [reflexivity|]);
      (split; [reflexivity|]); (split; [reflexivity|]);
      (split; [intros m' Hm; by inversion Hm|]);
      first [ intros _; reflexivity | intros Hm; by destruct (Hm m) ].
Qed.

Lemma api_failure_aborts_witness :
  let two := [Samples.porto_alegre; Samples.canoas] in
  let quota := Env (Samples.quota_service 2) Samples.accepting_db true in
  let flaky := Env (Samples.flaky_service 2) Samples.accepting_db true in
  (exists w',
     TransformDb.save_dataset_coordinates_to_database quota
       Samples.five_rows Samples.empty_world = Exited 1 w'
     /\ length (api_calls w') = 3
     /\ length (coordinate_points w') = 2
     /\ length (addresses w') = 2)
  /\ (exists w',
        TransformCsv.save_dataset_coordinates_to_database quota
          Samples.five_rows Samples.empty_world = Exited 1 w'
        /\ length (api_calls w') = 3
        /\ length (coordinate_points w') = 2
        /\ length (addresses w') = 2)
  /\ (exists o,
        TransformDb.save_dataset_coordinates_to_database flaky
          Samples.five_rows Samples.empty_world = o
        /\ exit_status o = 1%Z
        /\ length (api_calls (final_world o)) = 3
        /\ length (coordinate_points (final_world o)) = 2
        /\ length (addresses (final_world o)) = 2).
Proof.
  intros two quota flaky.
  destruct (api_failure_aborts quota two Samples.porto_alegre
              [Samples.canoas; Samples.canoas] Samples.empty_world
              (VNum (-30 # 1)) (VNum (-51 # 1)) (ApiError "OVER_QUERY_LIMIT")
              eq_refl eq_refl) as [Hdb Hcsv].
  destruct (api_failure_aborts flaky two Samples.porto_alegre
              [Samples.canoas; Samples.canoas] Samples.empty_world
              (VNum (-30 # 1)) (VNum (-51 # 1))
              (TransportError "connection reset")
              eq_refl eq_refl) as [Hflaky _].
  split_and!.
  - destruct (Hdb (final_world
                     (TransformDb.save_dataset_coordinates_to_database quota
                        two Samples.empty_world)) eq_refl eq_refl)
      as (o & w' & Hrun & <- & _ & _ & _ & _ & Hexit & _).
    rewrite (Hexit _ eq_refl) in Hrun. eexists. split; [exact Hrun|].
    repeat split.
  - destruct (Hcsv (final_world
                      (TransformCsv.save_dataset_coordinates_to_database quota
                         two Samples.empty_world)) eq_refl eq_refl)
      as (o & w' & Hrun & <- & _ & _ & _ & _ & Hexit & _).
    rewrite (Hexit _ eq_refl) in Hrun. eexists. split; [exact Hrun|].
    repeat split.
  - destruct (Hflaky (final_world
                        (TransformDb.save_dataset_coordinates_to_database
                           flaky two Samples.empty_world)) eq_refl eq_refl)
      as (o & w' & Hrun & <- & Hstatus & Hcalls & Hc & Ha & _).
    exists o. split; [exact Hrun|]. split; [exact Hstatus|].
    rewrite Hcalls, Hc, Ha. repeat split.
Defined.

(** ** What is written to [addresses] *)

Lemma get_merged_latitude (latitude longitude : value) (d : dict value) :
  get "latitude" (update [("latitude", latitude); ("longitude", longitude)] d)
  = latitude.
Proof.
  unfold update. cbn [fold_left fst snd].
  rewrite get_setitem_ne by done. apply get_setitem_eq.
Qed.

Lemma get_merged_longitude (latitude longitude : value) (d : dict value) :
  get "longitude" (update [("latitude", latitude); ("longitude", longitude)] d)
  = longitude.
Proof. unfold update. cbn [fold_left fst snd]. apply get_setitem_eq. Qed.

Lemma db_addresses_row_latitude (d : dict value) :
  get "latitude" (TransformDb.addresses_row d) = get "latitude" d.
Proof. reflexivity. Qed.

Lemma db_addresses_row_longitude (d : dict value) :
  get "longitude" (TransformDb.addresses_row d) = get "longitude" d.
Proof. reflexivity. Qed.

(** C2, transform_csv_to_database.py: the row's coordinates are merged
    under the keys "latitute" and "longitute", the address row is built
    from the keys "latitude" and "longitude", and the row that reaches
    [addresses] carries [None] for both, not the coordinates of the input
    row. *)
Theorem csv_persists_null_coordinates :
  let E := Env Samples.rooftop_service Samples.accepting_db true in
  exists w' persisted,
    TransformCsv.process_row E Samples.porto_alegre Samples.empty_world
    = Done tt w'
    /\ addresses w' = [persisted]
    /\ lookup "latitude" Samples.porto_alegre = Some (VNum (-30 # 1))
    /\ lookup "longitude" Samples.porto_alegre = Some (VNum (-51 # 1))
    /\ get "latitude" persisted = VNone
    /\ get "longitude" persisted = VNone.
Proof.
  intros E. do 2 eexists. split; [vm_compute; reflexivity|].
  split; [reflexivity|]. repeat split.
Qed.

(** ** Conflicts on insert *)

(** X23: in transform_db.py no exception of an insert leaves [process_row]:
    what it lets through is the [KeyError] of a missing column or the
    exception the service raised, and then nothing was inserted. *)
Theorem db_process_row_raises E (coordinate : row) (w w' : world) (e : exn) :
  TransformDb.process_row E coordinate w = Raised e w' ->
  ((exists column, e = KeyError column /\ lookup column coordinate = None)
   \/ (exists latitude longitude,
         reverse_geocode E (api_calls w) latitude longitude = Fails e))
  /\ coordinate_points w' = coordinate_points w
  /\ addresses w' = addresses w.
Proof.
  unfold TransformDb.process_row, TransformDb.get_address_from_coordinates,
    bind, getitem, ret, raise, logger, print, sys_exit.
  repeat (pipeline_case; cbn [negb]);
    rewrite ?db_save_to_database_eq; try discriminate;
    intros [= <- <-]; (split; [|done]); eauto.
Qed.

(** X24: a conflict on either insert ends [save_to_database] normally, with the
    database's message logged at CRITICAL, and the batch goes on with the
    next row. *)
Theorem db_conflict_contained
  E (coordinate address : row) (w : world) (orig : string) :
  db_refuses E coordinate_points_table (coordinate_points w) coordinate
  = Some (IntegrityError orig)
  \/ (db_refuses E coordinate_points_table (coordinate_points w) coordinate
      = None
      /\ db_refuses E addresses_table (addresses w) address
         = Some (IntegrityError orig)) ->
  exists w',
    TransformDb.save_to_database E coordinate address w = Done tt w'
    /\ log w' = log w ++ [(CRITICAL, MsgText (replace_newlines orig))]
    /\ addresses w' = addresses w.
Proof.
  intros [Hc|[Hc Ha]]; eexists; (split; [apply db_save_to_database_eq|]);
    rewrite Hc; cbv zeta; rewrite ?Ha;
    rewrite log_reported, addresses_reported; done.
Qed.

Lemma db_batch_step E (coordinate : row) (rest : list row) (w w' : world) :
  TransformDb.process_row E coordinate w = Done tt w' ->
  TransformDb.save_dataset_coordinates_to_database E (coordinate :: rest) w
  = TransformDb.save_dataset_coordinates_to_database E rest w'.
Proof.
  intros Hrow. cbn [TransformDb.save_dataset_coordinates_to_database].
  by rewrite (bind_Done _ _ _ _ _ Hrow).
Qed.

(** C3, transform_csv_to_database.py: no [try] surrounds the inserts.  With
    a unique key on (latitude, longitude), the second row of a batch that
    repeats the first raises [IntegrityError] out of
    [save_dataset_coordinates_to_database], and the third row is never
    processed; transform_db.py, on the same batch, logs the conflict and
    processes the third row. *)
Theorem csv_conflict_aborts_batch :
  let E := Env Samples.rooftop_service Samples.unique_place_db true in
  (exists w',
     TransformCsv.save_dataset_coordinates_to_database E
       Samples.repeated_rows Samples.empty_world
     = Raised Samples.duplicate_key w'
     /\ length (api_calls w') = 2
     /\ coordinate_points w' = [Samples.porto_alegre])
  /\ (exists w',
        TransformDb.save_dataset_coordinates_to_database E
          Samples.repeated_rows Samples.empty_world
        = Done tt w'
        /\ length (api_calls w') = 3
        /\ coordinate_points w' = [Samples.porto_alegre; Samples.canoas]
        /\ count_level CRITICAL w' = 1).
Proof.
  intros E. split; eexists; (split; [vm_compute; reflexivity|]);
    repeat split.
Qed.

(** ** The two validators side by side *)

(** C1, transform_csv_to_database.py: the validator of this file accepts an
    address that has three fields, none of them "latitude" or "longitude",
    and rejects an address whose fields are exactly the nine required
    names. *)
Theorem csv_validator_not_exact :
  dict_ok Samples.partial_address
  /\ field_names Samples.partial_address <> required_fields
  /\ TransformCsv.is_address_valid Samples.partial_address = true
  /\ dict_ok Samples.complete_address
  /\ field_names Samples.complete_address = required_fields
  /\ TransformCsv.is_address_valid Samples.complete_address = false.
Proof.
  assert (Hp : dict_ok Samples.partial_address) by by_compute.
  assert (Hc : dict_ok Samples.complete_address) by by_compute.
  split; [exact Hp|]. split.
  { rewrite <- (db_is_address_valid_exact _ Hp). by vm_compute. }
  split; [reflexivity|]. split; [exact Hc|]. split; [|reflexivity].
  rewrite <- (db_is_address_valid_exact _ Hc). by vm_compute.
Qed.

(** C10: the two validators do not compute the same predicate.  On the
    three-field address the one of transform_csv_to_database.py answers
    true and the one of transform_db.py false; on the complete address it
    is the other way round. *)
Theorem validators_disagree :
  TransformCsv.is_address_valid Samples.partial_address = true
  /\ TransformDb.is_address_valid Samples.partial_address = false
  /\ TransformCsv.is_address_valid Samples.complete_address = false
  /\ TransformDb.is_address_valid Samples.complete_address = true.
Proof. split_and!; by vm_compute. Qed.

(** * Further properties of the code *)

(** ** The validators *)

(** X1: the validator of transform_db.py accepts a dictionary exactly when
    its keys are the nine required names, and gives the same answer for
    the same pairs in any other order. *)
Theorem db_validator_exact_any_order {V} (address address' : dict V) :
  dict_ok address ->
  (TransformDb.is_address_valid address = true
   <-> field_names address = required_fields)
  /\ (address ≡ₚ address' ->
      TransformDb.is_address_valid address'
      = TransformDb.is_address_valid address).
Proof.
  intros Hok. split.
  - by apply db_is_address_valid_exact.
  - intros Hp. symmetry. by apply db_is_address_valid_order.
Qed.

Lemma db_validator_exact_any_order_witness :
  (TransformDb.is_address_valid Samples.complete_address = true
   <-> field_names Samples.complete_address = required_fields)
  /\ (Samples.complete_address ≡ₚ reverse Samples.complete_address ->
      TransformDb.is_address_valid (reverse Samples.complete_address)
      = TransformDb.is_address_valid Samples.complete_address).
Proof.
  apply (db_validator_exact_any_order Samples.complete_address
           (reverse Samples.complete_address)).
  by_compute.
Defined.

(** X2: the validator of transform_csv_to_database.py is a subset test: it
    accepts a dictionary exactly when each of its keys is one of the nine
    names of its list, whatever keys are missing; the empty dictionary
    passes. *)
Theorem csv_validator_subset_test {V} (address : dict V) :
  (TransformCsv.is_address_valid address = true
   <-> field_names address ⊆ csv_known_fields)
  /\ TransformCsv.is_address_valid (@nil (string * V)) = true.
Proof.
  split; [|reflexivity].
  rewrite csv_is_address_valid_subset. unfold field_names, csv_known_fields.
  split.
  - intros Hall key Hkey. apply elem_of_list_to_set in Hkey.
    apply elem_of_list_to_set. by apply Hall.
  - intros Hsub key Hkey. apply (elem_of_list_to_set (C := gset string)).
    apply Hsub. by apply elem_of_list_to_set.
Qed.

Lemma validators_exclusive_witness :
  TransformCsv.is_address_valid Samples.complete_address = false.
Proof.
  apply (validators_exclusive Samples.complete_address). reflexivity.
Defined.

Lemma csv_merge_passes
  (cs : list component) (address : dict value) (latitute longitute : value) :
  TransformCsv.get_address_from_address_components cs = Some address ->
  TransformCsv.is_address_valid
    (update [("latitute", latitute); ("longitute", longitute)] address)
  = true.
Proof.
  rewrite extractors_agree. intros Hget.
  apply extracted_address_fields in Hget as [_ Hnames].
  apply csv_is_address_valid_subset. intros key Hkey.
  apply (elem_of_list_to_set (C := gset string)) in Hkey.
  fold (field_names
          (update [("latitute", latitute); ("longitute", longitute)] address))
    in Hkey.
  unfold update in Hkey. cbn [fold_left fst snd] in Hkey.
  rewrite !field_names_setitem, Hnames, !elem_of_union, !elem_of_singleton
    in Hkey.
  destruct Hkey as [->|[->|Hkey]]; [by_compute|by_compute|].
  apply extracted_fields_bound, elem_of_extracted_fields in Hkey.
  destruct Hkey as [->|[->|[->|[->|[->|[->| ->]]]]]]; by_compute.
Qed.

(** X4: in transform_csv_to_database.py the validation step never rejects:
    whatever address the extractor returns, once the coordinates are
    merged under "latitute" and "longitute" the validator of that file
    accepts it, complete or not. *)
Theorem csv_validation_never_rejects
  (cs : list component) (address : dict value) (latitute longitute : value) :
  TransformCsv.get_address_from_address_components cs = Some address ->
  TransformCsv.is_address_valid
    (update [("latitute", latitute); ("longitute", longitute)] address)
  = true.
Proof. apply csv_merge_passes. Qed.

Lemma csv_validation_never_rejects_witness :
  TransformCsv.is_address_valid
    (update [("latitute", VNum (-30 # 1)); ("longitute", VNum (-51 # 1))]
            [("country", VStr "Brazil")])
  = true.
Proof.
  apply (csv_validation_never_rejects
           [Component (Some ["country"; "political"]) (VStr "Brazil")
                      (VStr "BR")]).
  reflexivity.
Defined.

(** ** The extractor *)

Lemma carried_field (c : component) (tag field : string)
  (sel : component -> value) :
  (tag, field, sel) ∈ field_source ->
  carries tag c -> field ∈ fields_of c.
Proof.
  unfold field_source. rewrite !elem_of_cons, elem_of_nil.
  intros Hin Hc. apply fields_of_spec.
  destruct Hin as [Heq|[Heq|[Heq|[Heq|[Heq|[Heq|[Heq|[]]]]]]]];
    injection Heq as -> -> ->; tauto.
Qed.

Lemma field_carried (c : component) (field : string) :
  field ∈ fields_of c ->
  exists tag sel, (tag, field, sel) ∈ field_source /\ carries tag c.
Proof.
  intros Hf. apply fields_of_spec in Hf. unfold field_source.
  destruct Hf as [[-> Hc]|[[-> Hc]|[[-> Hc]|[[-> Hc]|[[-> Hc]|[[-> Hc]|
                 [-> Hc]]]]]]];
    do 2 eexists; (split; [|exact Hc]).
  - apply (list_elem_of_lookup_2 _ 0). reflexivity.
  - apply (list_elem_of_lookup_2 _ 1). reflexivity.
  - apply (list_elem_of_lookup_2 _ 2). reflexivity.
  - apply (list_elem_of_lookup_2 _ 3). reflexivity.
  - apply (list_elem_of_lookup_2 _ 4). reflexivity.
  - apply (list_elem_of_lookup_2 _ 5). reflexivity.
  - apply (list_elem_of_lookup_2 _ 6). reflexivity.
Qed.

Lemma recognized_tag_source (tag : string) :
  tag ∈ recognized_tags <->
  exists field sel, (tag, field, sel) ∈ field_source.
Proof.
  unfold recognized_tags, field_source. split.
  - rewrite !elem_of_cons, elem_of_nil.
    intros [->|[->|[->|[->|[->|[->|[->|[]]]]]]]]; do 2 eexists.
    + apply (list_elem_of_lookup_2 _ 0). reflexivity.
    + apply (list_elem_of_lookup_2 _ 1). reflexivity.
    + apply (list_elem_of_lookup_2 _ 2). reflexivity.
    + apply (list_elem_of_lookup_2 _ 3). reflexivity.
    + apply (list_elem_of_lookup_2 _ 4). reflexivity.
    + apply (list_elem_of_lookup_2 _ 5). reflexivity.
    + apply (list_elem_of_lookup_2 _ 6). reflexivity.
  - intros (field & sel & Hin). rewrite !elem_of_cons, elem_of_nil in Hin.
    destruct Hin as [Heq|[Heq|[Heq|[Heq|[Heq|[Heq|[Heq|[]]]]]]]];
      injection Heq as -> -> ->; by_compute.
Qed.

Lemma elem_of_extracted (cs : list component) (field : string) :
  field ∈ ⋃ (fields_of <$> cs)
  <-> exists tag sel c,
        (tag, field, sel) ∈ field_source /\ c ∈ cs /\ carries tag c.
Proof.
  rewrite elem_of_union_list. split.
  - intros (X & (c & -> & Hc)%list_elem_of_fmap & Hf).
    apply field_carried in Hf as (tag & sel & Hsrc & Hcar).
    by exists tag, sel, c.
  - intros (tag & sel & c & Hsrc & Hc & Hcar). exists (fields_of c). split.
    + apply list_elem_of_fmap. by exists c.
    + by apply (carried_field c tag field sel).
Qed.

Lemma extract_none_lemma (cs : list component) :
  TransformDb.get_address_from_address_components cs = None
  <-> forall c tag, c ∈ cs -> tag ∈ recognized_tags -> ~ carries tag c.
Proof.
  split; [|apply extract_nothing].
  unfold TransformDb.get_address_from_address_components.
  destruct (truthy _) eqn:Ht; [done|]. intros _ c tag Hc Htag Hcar.
  apply truthy_field_names in Ht. rewrite field_names_extract in Ht.
  apply recognized_tag_source in Htag as (field & sel & Hsrc).
  assert (Hin : field ∈ (∅ : gset string)).
  { rewrite <- Ht. apply elem_of_union. right. apply elem_of_extracted.
    by exists tag, sel, c. }
  by apply elem_of_empty in Hin.
Qed.

(** X5: the extractor returns nothing exactly when no component carries
    any of the seven recognized tags. *)
Theorem extract_none_iff (cs : list component) :
  TransformDb.get_address_from_address_components cs = None
  <-> forall c tag, c ∈ cs -> tag ∈ recognized_tags -> ~ carries tag c.
Proof. apply extract_none_lemma. Qed.

(** X6: what the extractor returns is a dictionary without repeated keys,
    not empty, whose fields are among the seven of the mapping; a field is
    present exactly when some component carries the tag mapped to it. *)
Theorem extracted_address_shape
  (cs : list component) (address : dict value) :
  TransformDb.get_address_from_address_components cs = Some address ->
  dict_ok address
  /\ address <> []
  /\ field_names address ⊆ extracted_fields
  /\ (forall field,
        field ∈ field_names address
        <-> exists tag sel c,
              (tag, field, sel) ∈ field_source /\ c ∈ cs /\ carries tag c).
Proof.
  intros Hget. pose proof (extracted_address_fields _ _ Hget) as [Hok Hnames].
  split; [done|]. split.
  { unfold TransformDb.get_address_from_address_components in Hget.
    destruct (truthy _) eqn:Ht; [|done]. injection Hget as <-.
    intros Hnil. by rewrite Hnil in Ht. }
  rewrite Hnames. split; [apply extracted_fields_bound|].
  apply elem_of_extracted.
Qed.

Lemma extracted_address_shape_witness :
  dict_ok [("street_number", VStr "123")]
  /\ [("street_number", VStr "123")] <> []
  /\ field_names [("street_number", VStr "123")] ⊆ extracted_fields
  /\ (forall field,
        field ∈ field_names [("street_number", VStr "123")]
        <-> exists tag sel c,
              (tag, field, sel) ∈ field_source
              /\ c ∈ [Component (Some ["street_number"]) (VStr "123")
                                (VStr "123")]
              /\ carries tag c).
Proof.
  apply (extracted_address_shape
           [Component (Some ["street_number"]) (VStr "123") (VStr "123")]).
  reflexivity.
Defined.

Lemma db_merged_valid_lemma
  (cs : list component) (address : dict value) (latitude longitude : value) :
  TransformDb.get_address_from_address_components cs = Some address ->
  TransformDb.is_address_valid
    (update [("latitude", latitude); ("longitude", longitude)] address)
  = true
  <-> forall tag, tag ∈ recognized_tags ->
                  exists c, c ∈ cs /\ carries tag c.
Proof.
  intros Hget. apply extracted_address_fields in Hget as [Hok Hnames].
  unfold update. cbn [fold_left fst snd].
  rewrite db_is_address_valid_exact by by do 2 apply dict_ok_setitem.
  rewrite !field_names_setitem, Hnames. split.
  - intros Heq tag Htag.
    apply recognized_tag_source in Htag as (field & sel & Hsrc).
    assert (Hf : field ∈ extracted_fields).
    { apply elem_of_extracted_fields. revert Hsrc. unfold field_source.
      rewrite !elem_of_cons, elem_of_nil.
      intros [H|[H|[H|[H|[H|[H|[H|[]]]]]]]]; injection H as -> -> ->; tauto. }
    assert (Hin : field ∈ ⋃ (fields_of <$> cs)).
    { assert (Hreq : field ∈ required_fields)
        by (apply elem_of_required_fields; tauto).
      rewrite <- Heq, !elem_of_union, !elem_of_singleton in Hreq.
      destruct Hreq as [->|[->|Hreq]]; [|  |done];
        exfalso; revert Hf; by_compute. }
    apply elem_of_extracted in Hin as (tag' & sel' & c & Hsrc' & Hc & Hcar).
    exists c. split; [done|].
    assert (tag' = tag); [|by subst].
    revert Hsrc Hsrc'. unfold field_source.
    rewrite !elem_of_cons, !elem_of_nil.
    intros [H|[H|[H|[H|[H|[H|[H|[]]]]]]]]; injection H as -> -> ->;
      intros [H|[H|[H|[H|[H|[H|[H|[]]]]]]]]; by injection H.
  - intros Hall. rewrite (extracted_fields_complete cs Hall).
    apply set_eq. intros x.
    rewrite elem_of_required_fields, !elem_of_union, !elem_of_singleton.
    tauto.
Qed.

(** X7: in transform_db.py, the address the extractor returns passes the
    validator after the merge of latitude and longitude exactly when every
    one of the seven recognized tags is carried by some component: a
    missing tag makes the row incomplete. *)
Theorem db_merged_valid_iff_all_tags
  (cs : list component) (address : dict value) (latitude longitude : value) :
  TransformDb.get_address_from_address_components cs = Some address ->
  TransformDb.is_address_valid
    (update [("latitude", latitude); ("longitude", longitude)] address)
  = true
  <-> forall tag, tag ∈ recognized_tags ->
                  exists c, c ∈ cs /\ carries tag c.
Proof. apply db_merged_valid_lemma. Qed.

Lemma db_merged_valid_iff_all_tags_witness :
  TransformDb.is_address_valid
    (update [("latitude", VNum (-30 # 1)); ("longitude", VNum (-51 # 1))]
            [("street_number", VStr "123")])
  = true
  <-> forall tag, tag ∈ recognized_tags ->
        exists c,
          c ∈ [Component (Some ["street_number"]) (VStr "123") (VStr "123")]
          /\ carries tag c.
Proof.
  apply (db_merged_valid_iff_all_tags
           [Component (Some ["street_number"]) (VStr "123") (VStr "123")]).
  reflexivity.
Defined.

Lemma get_cond_update (f k : string) (b : bool) (v : value) (a : dict value) :
  get f (if b then update [(k, v)] a else a)
  = if b then (if String.eqb f k then v else get f a) else get f a.
Proof.
  destruct b; [|done]. unfold update. cbn [fold_left fst snd].
  destruct (String.eqb_spec f k) as [->|Hne].
  - apply get_setitem_eq.
  - by apply get_setitem_ne.
Qed.

Lemma get_extract_component
  (tag field : string) (sel : component -> value)
  (a : dict value) (c : component) :
  (tag, field, sel) ∈ field_source ->
  get field (TransformDb.extract_component a c)
  = if TransformDb.has_type tag (types c) then sel c else get field a.
Proof.
  unfold field_source. rewrite !elem_of_cons, elem_of_nil.
  intros [H|[H|[H|[H|[H|[H|[H|[]]]]]]]]; injection H as -> -> ->;
    unfold TransformDb.extract_component; cbv zeta;
    rewrite !get_cond_update; cbn [String.eqb Ascii.eqb Bool.eqb];
    repeat match goal with
      | |- context [TransformDb.has_type ?t ?x] =>
          destruct (TransformDb.has_type t x)
      end; reflexivity.
Qed.

Lemma field_value_extract (field : string) (cs : list component) :
  field_value field (TransformDb.get_address_from_address_components cs)
  = get field (fold_left TransformDb.extract_component cs []).
Proof.
  unfold TransformDb.get_address_from_address_components, field_value.
  by destruct (fold_left TransformDb.extract_component cs []).
Qed.

(** X8: the last component decides.  For each line of the mapping, if the
    last component of the list carries the tag, the field holds that
    component's name (the short name for "state", the long name for the
    others), whatever came before; if it does not, the field is as the
    components before it left it. *)
Theorem extract_last_component_decides
  (tag field : string) (sel : component -> value)
  (cs : list component) (c : component) :
  (tag, field, sel) ∈ field_source ->
  (carries tag c ->
   field_value field
     (TransformDb.get_address_from_address_components (cs ++ [c]))
   = sel c)
  /\ (~ carries tag c ->
      field_value field
        (TransformDb.get_address_from_address_components (cs ++ [c]))
      = field_value field
          (TransformDb.get_address_from_address_components cs)).
Proof.
  intros Hsrc. rewrite !field_value_extract, fold_left_app.
  cbn [fold_left]. rewrite (get_extract_component tag field sel) by done.
  split; intros Hc.
  - apply has_type_carries in Hc. by rewrite Hc.
  - destruct (TransformDb.has_type tag (types c)) eqn:Hb; [|done].
    by apply has_type_carries in Hb.
Qed.

Lemma extract_last_component_decides_witness :
  let c := Component (Some ["administrative_area_level_1"; "political"])
                     (VStr "Rio Grande do Sul") (VStr "RS") in
  (carries "administrative_area_level_1" c ->
   field_value "state"
     (TransformDb.get_address_from_address_components
        (Samples.full_components ++ [c]))
   = VStr "RS")
  /\ (~ carries "administrative_area_level_1" c ->
      field_value "state"
        (TransformDb.get_address_from_address_components
           (Samples.full_components ++ [c]))
      = field_value "state"
          (TransformDb.get_address_from_address_components
             Samples.full_components)).
Proof.
  intros c.
  apply (extract_last_component_decides "administrative_area_level_1" "state"
           short_name Samples.full_components c).
  apply (list_elem_of_lookup_2 _ 1). reflexivity.
Defined.

(** ** The loops *)

Lemma db_batch_for_each E (rows : list row) (w : world) :
  TransformDb.save_dataset_coordinates_to_database E rows w
  = for_each (TransformDb.process_row E) rows w.
Proof.
  revert w. induction rows as [|r rows IH]; intros w; [done|].
  cbn [TransformDb.save_dataset_coordinates_to_database for_each].
  unfold bind. by destruct (TransformDb.process_row E r w).
Qed.

Lemma csv_batch_for_each E (rows : list row) (w : world) :
  TransformCsv.save_dataset_coordinates_to_database E rows w
  = for_each (TransformCsv.process_row E) rows w.
Proof.
  revert w. induction rows as [|r rows IH]; intros w; [done|].
  cbn [TransformCsv.save_dataset_coordinates_to_database for_each].
  unfold bind. by destruct (TransformCsv.process_row E r w).
Qed.

Section Lifting.

Variable turn : row -> M unit.

(** A reflexive and transitive relation between the state before and the
    state after every turn holds between the states before and after the
    loop, however the loop ends. *)
Lemma for_each_related (R : relation world) `{!PreOrder R} :
  (forall r w, R w (final_world (turn r w))) ->
  forall rows w, R w (final_world (for_each turn rows w)).
Proof.
  intros Hturn rows. induction rows as [|r rows IH]; intros w.
  - reflexivity.
  - cbn [for_each]. unfold bind. specialize (Hturn r w).
    destruct (turn r w) as [[] w1|e w1|code w1]; cbn [final_world] in *;
      [|done|done].
    etransitivity; [exact Hturn|apply IH].
Qed.

(** What every turn that ends normally adds to the calls, the loop that
    ends normally adds row by row. *)
Lemma for_each_calls (P : row -> value * value -> Prop) :
  (forall r w w', turn r w = Done tt w' ->
     exists c, api_calls w' = api_calls w ++ [c] /\ P r c) ->
  forall rows w w', for_each turn rows w = Done tt w' ->
    exists calls, api_calls w' = api_calls w ++ calls /\ Forall2 P rows calls.
Proof.
  intros Hturn rows. induction rows as [|r rows IH]; intros w w'.
  - intros [= <-]. exists []. by rewrite app_nil_r.
  - cbn [for_each]. unfold bind.
    destruct (turn r w) as [[] w1|e w1|code w1] eqn:Hr; [|done|done].
    intros Hrest. apply Hturn in Hr as (c & Hc & HP).
    apply IH in Hrest as (calls & Hcalls & HF).
    exists (c :: calls). split; [|by constructor].
    by rewrite Hcalls, Hc, <- app_assoc.
Qed.

End Lifting.

#[local] Instance extends_preorder : PreOrder extends.
Proof.
  split.
  - intros w. by unfold extends.
  - intros w1 w2 w3 (?&?&?&?&?) (?&?&?&?&?).
    unfold extends. split_and!; by etransitivity.
Qed.

#[local] Instance addresses_follow_preorder : PreOrder addresses_follow.
Proof. split; unfold addresses_follow; [intros w|intros w1 w2 w3]; lia. Qed.

#[local] Instance added_rows_shaped_preorder : PreOrder added_rows_shaped.
Proof.
  split.
  - intros w. exists [], []. by rewrite !app_nil_r.
  - intros w1 w2 w3 (c1 & a1 & Hc1 & Ha1 & Fc1 & Fa1)
                    (c2 & a2 & Hc2 & Ha2 & Fc2 & Fa2).
    exists (c1 ++ c2), (a1 ++ a2).
    rewrite Hc2, Hc1, Ha2, Ha1, <- !app_assoc, !Forall_app. done.
Qed.

Lemma extract_nil :
  TransformDb.get_address_from_address_components [] = None.
Proof. reflexivity. Qed.

(** A row that has a latitude and a longitude has two cells. *)
Lemma first_two_cells (coordinate : row) (latitude longitude : value) :
  lookup "latitude" coordinate = Some latitude ->
  lookup "longitude" coordinate = Some longitude ->
  exists cell_0 cell_1,
    nth_error (coordinate.*2) 0 = Some cell_0
    /\ nth_error (coordinate.*2) 1 = Some cell_1.
Proof.
  destruct coordinate as [|[k0 v0] [|[k1 v1] rest]]; [done| |by eauto].
  cbn [lookup]. destruct (String.eqb_spec "latitude" k0) as [<-|]; [|done].
  cbn. done.
Qed.

(** Every turn of the loop of transform_db.py goes one of the ways of
    [db_turn]. *)
Lemma db_process_row_turn E (coordinate : row) (w : world) :
  db_turn E coordinate w (TransformDb.process_row E coordinate w).
Proof.
  unfold TransformDb.process_row, bind at 1, getitem at 1.
  destruct (lookup "latitude" coordinate) as [latitude|] eqn:Hlat;
    [|apply DbNoCoordinate; auto].
  cbn [ret]. unfold bind at 1, getitem at 1.
  destruct (lookup "longitude" coordinate) as [longitude|] eqn:Hlon;
    [|apply DbNoCoordinate; [right; split; congruence|done]].
  cbn [ret].
  assert (Hsent : sent_for coordinate (latitude, longitude)) by done.
  unfold bind at 1, TransformDb.get_address_from_coordinates.
  destruct (reverse_geocode E (api_calls w) latitude longitude)
    as [[|result_0 others]|e] eqn:Hreply.
  - replace (bind _ _ _) with
      (Done tt (reported E WARNING (MsgNotSaved [])
                         (add_call (latitude, longitude) w)));
      [by apply DbNotFound|].
    unfold reported, bind. by destruct (module_is_main E).
  - destruct (truthy _) eqn:Ht.
    + destruct (TransformDb.get_address_from_address_components _)
        as [extracted|] eqn:Hget.
      * unfold bind at 1, getitem at 1. rewrite Hlat. cbn [ret].
        unfold bind at 1, getitem at 1. rewrite Hlon. cbn [ret].
        destruct (TransformDb.is_address_valid _) eqn:Hvalid.
        -- unfold bind at 1, getitem at 1. rewrite Hlat. cbn [ret].
           unfold bind at 1, getitem at 1. rewrite Hlon. cbn [ret].
           unfold bind at 1, getitem at 1.
           destruct (lookup "distance_km" coordinate) as [distance_km|]
             eqn:Hdist;
             [|eapply DbNoColumn; eauto].
           cbn [ret]. unfold bind at 1, getitem at 1.
           destruct (lookup "bearing_degrees" coordinate)
             as [bearing_degrees|] eqn:Hbear;
             [|eapply DbNoColumn; eauto; right; split; congruence].
           cbn [ret]. eapply DbSave; eauto.
        -- eapply DbSkipped; eauto. by rewrite Hget.
      * eapply DbSkipped; eauto. by rewrite Hget.
    + eapply DbSkipped; eauto.
      destruct (default [] (cand_address_components result_0)); [|done].
      by rewrite extract_nil.
  - destruct e; try (apply DbServiceError; [done|done|congruence]).
    by apply DbApiError.
Qed.

(** Every turn of the loop of transform_csv_to_database.py goes one of
    the ways of [csv_turn]: with a latitude and a longitude in the row the
    two cells are there, and the validator of this file lets every
    extracted address through. *)
Lemma csv_process_row_turn E (coordinate : row) (w : world) :
  csv_turn E coordinate w (TransformCsv.process_row E coordinate w).
Proof.
  unfold TransformCsv.process_row. cbv zeta. unfold bind at 1, getitem at 1.
  destruct (lookup "latitude" coordinate) as [latitude|] eqn:Hlat;
    [|apply CsvNoCoordinate; auto].
  cbn [ret]. unfold bind at 1, getitem at 1.
  destruct (lookup "longitude" coordinate) as [longitude|] eqn:Hlon;
    [|apply CsvNoCoordinate; [right; split; congruence|done]].
  cbn [ret].
  assert (Hsent : sent_for coordinate (latitude, longitude)) by done.
  destruct (first_two_cells _ _ _ Hlat Hlon) as (cell_0 & cell_1 & H0 & H1).
  unfold bind at 1, TransformCsv.get_address_from_coordinates.
  destruct (reverse_geocode E (api_calls w) latitude longitude)
    as [[|result_0 others]|e] eqn:Hreply.
  - by apply CsvNotFound.
  - destruct (truthy _) eqn:Ht.
    + destruct (TransformCsv.get_address_from_address_components _)
        as [extracted|] eqn:Hget; [|by eapply CsvSkipped].
      unfold bind at 1, values_at at 1. rewrite H0. cbn [ret].
      unfold bind at 1, values_at at 1. rewrite H1. cbn [ret].
      rewrite (csv_merge_passes _ _ _ _ Hget).
      eapply CsvLogged; eauto.
      unfold bind at 1, logger at 1.
      unfold bind at 1, getitem at 1. rewrite Hlat. cbn [ret].
      unfold bind at 1, getitem at 1. rewrite Hlon. cbn [ret].
      unfold bind at 1, getitem at 1.
      destruct (lookup "distance_km" coordinate) as [distance_km|] eqn:Hdist;
        [|apply CsvNoColumn; auto].
      cbn [ret]. unfold bind at 1, getitem at 1.
      destruct (lookup "bearing_degrees" coordinate) as [bearing_degrees|]
        eqn:Hbear; [|apply CsvNoColumn; [right; split; congruence|done]].
      cbn [ret]. unfold bind, insert. cbn [rows_of].
      destruct (db_refuses E coordinate_points_table _ _) as [e|] eqn:Hc;
        [by eapply CsvCoordinateRefused|].
      cbn [rows_of add_row addresses].
      destruct (db_refuses E addresses_table _ _) as [e|] eqn:Ha.
      * by eapply CsvAddressRefused.
      * by eapply CsvSaved.
    + eapply CsvSkipped; eauto.
      by destruct (default [] (cand_address_components result_0)).
  - destruct e; try (apply CsvServiceError; [done|done|congruence]).
    by apply CsvApiError.
Qed.

(** Reasoning by the ways a turn can go. *)
Ltac by_db_turn E coordinate w :=
  generalize (db_process_row_turn E coordinate w);
  generalize (TransformDb.process_row E coordinate w);
  intros ? [];
  rewrite ?db_save_to_database_eq; unfold reported; cbn [final_world];
  repeat (pipeline_case; cbn [negb]).

Ltac by_csv_turn E coordinate w :=
  generalize (csv_process_row_turn E coordinate w);
  generalize (TransformCsv.process_row E coordinate w);
  intros ? [];
  try match goal with
    | H : csv_store _ _ _ _ _ _ _ |- _ => destruct H
    end;
  cbn [final_world].

Ltac unfold_world :=
  unfold add_log, add_row, add_stdout, add_call;
  cbn [coordinate_points addresses log stdout api_calls].

Lemma db_process_row_extends E (coordinate : row) (w : world) :
  extends w (final_world (TransformDb.process_row E coordinate w)).
Proof.
  by_db_turn E coordinate w; unfold extends; unfold_world; split_and!;
    repeat apply prefix_app_r; reflexivity.
Qed.

Lemma csv_process_row_extends E (coordinate : row) (w : world) :
  extends w (final_world (TransformCsv.process_row E coordinate w)).
Proof.
  by_csv_turn E coordinate w; unfold extends; unfold_world; split_and!;
    repeat apply prefix_app_r; reflexivity.
Qed.

(** X9: the scripts only ever add.  However a run over a batch ends
    (normally, with an exception, or with an exit), the state it leaves
    starts with the state it found: no row of either table, no log record,
    no line of output and no recorded call is changed or removed. *)
Theorem batch_only_adds E (rows : list row) (w : world) :
  extends w
    (final_world (TransformDb.save_dataset_coordinates_to_database E rows w))
  /\ extends w
       (final_world
          (TransformCsv.save_dataset_coordinates_to_database E rows w)).
Proof.
  rewrite db_batch_for_each, csv_batch_for_each. split.
  - apply (for_each_related _ extends), db_process_row_extends.
  - apply (for_each_related _ extends), csv_process_row_extends.
Qed.

Lemma db_process_row_addresses_follow E (coordinate : row) (w : world) :
  addresses_follow w (final_world (TransformDb.process_row E coordinate w)).
Proof.
  by_db_turn E coordinate w; unfold addresses_follow; unfold_world;
    rewrite ?length_app;
    cbn [length]; lia.
Qed.

Lemma csv_process_row_addresses_follow E (coordinate : row) (w : world) :
  addresses_follow w (final_world (TransformCsv.process_row E coordinate w)).
Proof.
  by_csv_turn E coordinate w; unfold addresses_follow; unfold_world;
    rewrite ?length_app;
    cbn [length]; lia.
Qed.

(** X10: the coordinate is inserted first.  However a run over a batch
    ends, it has added at most as many rows to [addresses] as to
    [coordinate_points]. *)
Theorem batch_addresses_follow E (rows : list row) (w : world) :
  addresses_follow w
    (final_world (TransformDb.save_dataset_coordinates_to_database E rows w))
  /\ addresses_follow w
       (final_world
          (TransformCsv.save_dataset_coordinates_to_database E rows w)).
Proof.
  rewrite db_batch_for_each, csv_batch_for_each. split.
  - apply (for_each_related _ addresses_follow),
      db_process_row_addresses_follow.
  - apply (for_each_related _ addresses_follow),
      csv_process_row_addresses_follow.
Qed.

Lemma db_process_row_shaped E (coordinate : row) (w : world) :
  added_rows_shaped w (final_world (TransformDb.process_row E coordinate w)).
Proof.
  by_db_turn E coordinate w; unfold added_rows_shaped; unfold_world;
    do 2 eexists;
    (split; [first [reflexivity | symmetry; apply app_nil_r]|]);
    (split; [first [reflexivity | symmetry; apply app_nil_r]|]);
    split; repeat constructor.
Qed.

Lemma csv_process_row_shaped E (coordinate : row) (w : world) :
  added_rows_shaped w (final_world (TransformCsv.process_row E coordinate w)).
Proof.
  by_csv_turn E coordinate w; unfold added_rows_shaped; unfold_world;
    do 2 eexists;
    (split; [first [reflexivity | symmetry; apply app_nil_r]|]);
    (split; [first [reflexivity | symmetry; apply app_nil_r]|]);
    split; repeat constructor.
Qed.

(** X11: whatever the service answers and however a run over a batch
    ends, every row it has added to [coordinate_points] has the four
    columns latitude, longitude, distance_km, bearing_degrees, and every
    row it has added to [addresses] the nine address columns, in the order
    of the dictionaries of the source. *)
Theorem batch_rows_shaped E (rows : list row) (w : world) :
  added_rows_shaped w
    (final_world (TransformDb.save_dataset_coordinates_to_database E rows w))
  /\ added_rows_shaped w
       (final_world
          (TransformCsv.save_dataset_coordinates_to_database E rows w)).
Proof.
  rewrite db_batch_for_each, csv_batch_for_each. split.
  - apply (for_each_related _ added_rows_shaped), db_process_row_shaped.
  - apply (for_each_related _ added_rows_shaped), csv_process_row_shaped.
Qed.

#[local] Instance keeps_joined_preorder : PreOrder keeps_joined.
Proof.
  split; unfold keeps_joined; [intros w|intros w1 w2 w3]; tauto.
Qed.

#[local] Instance saved_logged_preorder : PreOrder saved_logged.
Proof. split; unfold saved_logged; [intros w|intros w1 w2 w3]; lia. Qed.

Lemma joined_same_tables (w w' : world) :
  coordinate_points w' = coordinate_points w ->
  addresses w' = addresses w ->
  keeps_joined w w'.
Proof. unfold keeps_joined, joined. by intros -> ->. Qed.

Lemma joined_more_coordinates (w w' : world) (r : row) :
  coordinate_points w' = coordinate_points w ++ [r] ->
  addresses w' = addresses w ->
  keeps_joined w w'.
Proof.
  unfold keeps_joined, joined. intros -> -> Hj a Ha.
  destruct (Hj a Ha) as (c & Hc & Hll). exists c. split; [|done].
  apply elem_of_app. by left.
Qed.

Lemma joined_pair (w w' : world) (c a : row) :
  coordinate_points w' = coordinate_points w ++ [c] ->
  addresses w' = addresses w ++ [a] ->
  get "latitude" c = get "latitude" a ->
  get "longitude" c = get "longitude" a ->
  keeps_joined w w'.
Proof.
  unfold keeps_joined, joined. intros -> -> Hlat Hlon Hj a' Ha'.
  apply elem_of_app in Ha' as [Ha'|Ha'].
  - destruct (Hj a' Ha') as (c' & Hc' & Hll). exists c'. split; [|done].
    apply elem_of_app. by left.
  - apply list_elem_of_singleton in Ha' as ->. exists c. split; [|done].
    apply elem_of_app. right. by apply list_elem_of_singleton.
Qed.

Lemma db_process_row_keeps_joined E (coordinate : row) (w : world) :
  keeps_joined w (final_world (TransformDb.process_row E coordinate w)).
Proof.
  by_db_turn E coordinate w;
    first
      [ apply joined_same_tables; reflexivity
      | eapply joined_more_coordinates; reflexivity
      | eapply joined_pair; [reflexivity|reflexivity| |];
        [ rewrite db_addresses_row_latitude, get_merged_latitude
        | rewrite db_addresses_row_longitude, get_merged_longitude ];
        reflexivity ].
Qed.

(** X12: in transform_db.py the two tables stay joinable.  If every
    stored address has a stored coordinate with the same latitude and
    longitude, this is still so after a run over a batch, however the run
    ends and whatever the database refuses. *)
Theorem db_batch_keeps_joined E (rows : list row) (w : world) :
  joined w ->
  joined
    (final_world (TransformDb.save_dataset_coordinates_to_database E rows w)).
Proof.
  rewrite db_batch_for_each.
  apply (for_each_related _ keeps_joined), db_process_row_keeps_joined.
Qed.

Lemma empty_world_joined : joined Samples.empty_world.
Proof. intros a Ha. by apply elem_of_nil in Ha. Qed.

Lemma db_batch_keeps_joined_witness :
  joined
    (final_world
       (TransformDb.save_dataset_coordinates_to_database
          (Env Samples.rooftop_service Samples.unique_address_db true)
          Samples.repeated_rows Samples.empty_world)).
Proof.
  apply (db_batch_keeps_joined
           (Env Samples.rooftop_service Samples.unique_address_db true)
           Samples.repeated_rows Samples.empty_world).
  exact empty_world_joined.
Defined.

Lemma db_process_row_saved_logged E (coordinate : row) (w : world) :
  saved_logged w (final_world (TransformDb.process_row E coordinate w)).
Proof.
  by_db_turn E coordinate w; unfold saved_logged;
    repeat first
      [ rewrite count_level_add_log | rewrite count_level_add_row
      | rewrite count_level_add_stdout | rewrite count_level_add_call ];
    unfold_world; rewrite ?length_app; cbn [level_eqb length]; lia.
Qed.

(** X13: in transform_db.py "Address saved" is logged for stored addresses
    only.  However a run over a batch ends, it has added as many INFO
    records to the log as rows to [addresses]. *)
Theorem db_batch_saved_logged E (rows : list row) (w : world) :
  saved_logged w
    (final_world (TransformDb.save_dataset_coordinates_to_database E rows w)).
Proof.
  rewrite db_batch_for_each.
  apply (for_each_related _ saved_logged), db_process_row_saved_logged.
Qed.

(** ** Calls to the service *)

Lemma api_calls_reported E (l : level) (m : message) (w : world) :
  api_calls (reported E l m w) = api_calls w.
Proof. unfold reported. by destruct (module_is_main E). Qed.

Lemma db_process_row_call E (coordinate : row) (w w' : world) :
  TransformDb.process_row E coordinate w = Done tt w' ->
  exists c, api_calls w' = api_calls w ++ [c] /\ sent_for coordinate c.
Proof.
  generalize (db_process_row_turn E coordinate w).
  generalize (TransformDb.process_row E coordinate w).
  intros o Hturn Ho. destruct Hturn; try discriminate;
    rewrite ?db_save_to_database_eq in Ho; injection Ho as <-;
    exists (latitude, longitude); (split; [|done]);
    repeat pipeline_case; by rewrite ?api_calls_reported.
Qed.

Lemma csv_process_row_call E (coordinate : row) (w w' : world) :
  TransformCsv.process_row E coordinate w = Done tt w' ->
  exists c, api_calls w' = api_calls w ++ [c] /\ sent_for coordinate c.
Proof.
  generalize (csv_process_row_turn E coordinate w).
  generalize (TransformCsv.process_row E coordinate w).
  intros o Hturn Ho. destruct Hturn; try discriminate;
    try match goal with
      | H : csv_store _ _ _ _ _ _ _ |- _ => destruct H
      end; try discriminate;
    injection Ho as <-; by exists (latitude, longitude).
Qed.

(** X15: one call per row.  When a run over a batch ends normally, the
    service was called exactly once for every row, in the order of the
    rows, each time with the latitude and the longitude of that row. *)
Theorem one_call_per_row E (rows : list row) (w : world) :
  (forall w',
     TransformDb.save_dataset_coordinates_to_database E rows w = Done tt w' ->
     exists calls,
       api_calls w' = api_calls w ++ calls /\ Forall2 sent_for rows calls)
  /\ (forall w',
        TransformCsv.save_dataset_coordinates_to_database E rows w
        = Done tt w' ->
        exists calls,
          api_calls w' = api_calls w ++ calls
          /\ Forall2 sent_for rows calls).
Proof.
  split; intros w'.
  - rewrite db_batch_for_each. apply for_each_calls.
    intros r. apply db_process_row_call.
  - rewrite csv_batch_for_each. apply for_each_calls.
    intros r. apply csv_process_row_call.
Qed.

Lemma one_call_per_row_witness :
  let E := Env Samples.rooftop_service Samples.accepting_db true in
  let rows := [Samples.porto_alegre; Samples.canoas] in
  (exists calls,
     api_calls
       (final_world
          (TransformDb.save_dataset_coordinates_to_database E rows
             Samples.empty_world))
     = api_calls Samples.empty_world ++ calls
     /\ Forall2 sent_for rows calls)
  /\ (exists calls,
        api_calls
          (final_world
             (TransformCsv.save_dataset_coordinates_to_database E rows
                Samples.empty_world))
        = api_calls Samples.empty_world ++ calls
        /\ Forall2 sent_for rows calls).
Proof.
  intros E rows.
  destruct (one_call_per_row E rows Samples.empty_world) as [Hdb Hcsv].
  split; [apply Hdb|apply Hcsv]; reflexivity.
Defined.

(** ** Missing columns *)

(** X16: a row without a latitude, or with a latitude and without a
    longitude, stops either script with the [KeyError] of that column
    before the service is called for the row: the state is the one the
    rows before it left, and the rows after it are not processed. *)
Theorem missing_coordinate_stops
  E (pre : list row) (coordinate : row) (post : list row) (w : world)
  (column : string) :
  column = "latitude"
  \/ (column = "longitude" /\ lookup "latitude" coordinate <> None) ->
  lookup column coordinate = None ->
  (forall w1,
     TransformDb.save_dataset_coordinates_to_database E pre w = Done tt w1 ->
     TransformDb.save_dataset_coordinates_to_database E
       (pre ++ coordinate :: post) w
     = Raised (KeyError column) w1)
  /\ (forall w1,
        TransformCsv.save_dataset_coordinates_to_database E pre w
        = Done tt w1 ->
        TransformCsv.save_dataset_coordinates_to_database E
          (pre ++ coordinate :: post) w
        = Raised (KeyError column) w1).
Proof.
  intros Hcol Hnone. split; intros w1 Hpre.
  - rewrite db_batch_app, (bind_Done _ _ _ _ _ Hpre).
    cbn [TransformDb.save_dataset_coordinates_to_database].
    unfold bind at 1, TransformDb.process_row, bind at 1, getitem at 1.
    destruct Hcol as [->|[-> Hlat]]; [by rewrite Hnone|].
    destruct (lookup "latitude" coordinate); [|done]. cbn [ret].
    unfold bind at 1, getitem. by rewrite Hnone.
  - rewrite csv_batch_app, (bind_Done _ _ _ _ _ Hpre).
    cbn [TransformCsv.save_dataset_coordinates_to_database].
    unfold bind at 1, TransformCsv.process_row. cbv zeta.
    unfold bind at 1, getitem at 1.
    destruct Hcol as [->|[-> Hlat]]; [by rewrite Hnone|].
    destruct (lookup "latitude" coordinate); [|done]. cbn [ret].
    unfold bind at 1, getitem. by rewrite Hnone.
Qed.

Lemma missing_coordinate_stops_witness :
  let E := Env Samples.rooftop_service Samples.accepting_db true in
  let no_longitude := [("latitude", VNum (-30 # 1))] in
  TransformDb.save_dataset_coordinates_to_database E
    ([] ++ no_longitude :: [Samples.canoas]) Samples.empty_world
  = Raised (KeyError "longitude") Samples.empty_world
  /\ TransformCsv.save_dataset_coordinates_to_database E
       ([] ++ no_longitude :: [Samples.canoas]) Samples.empty_world
     = Raised (KeyError "longitude") Samples.empty_world.
Proof.
  intros E no_longitude.
  destruct (missing_coordinate_stops E [] no_longitude [Samples.canoas]
              Samples.empty_world "longitude") as [Hdb Hcsv].
  - right. split; [reflexivity|discriminate].
  - reflexivity.
  - split; [apply Hdb|apply Hcsv]; reflexivity.
Defined.

(** What a turn of transform_db.py does with a row whose address
    passes the validator. *)
Lemma db_validated_row_eq
  E (coordinate : row) (w : world) (latitude longitude : value)
  (result_0 : candidate) (others : list candidate) (extracted : dict value) :
  sent_for coordinate (latitude, longitude) ->
  reverse_geocode E (api_calls w) latitude longitude
  = Reply (result_0 :: others) ->
  TransformDb.get_address_from_address_components
    (default [] (cand_address_components result_0)) = Some extracted ->
  TransformDb.is_address_valid
    (update [("latitude", latitude); ("longitude", longitude)] extracted)
  = true ->
  TransformDb.process_row E coordinate w
  = (let! distance_km := getitem coordinate "distance_km" in
     let! bearing_degrees := getitem coordinate "bearing_degrees" in
     TransformDb.save_to_database E
       [ ("latitude", latitude); ("longitude", longitude);
         ("distance_km", distance_km); ("bearing_degrees", bearing_degrees) ]
       (TransformDb.addresses_row
          (update [("latitude", latitude); ("longitude", longitude)]
                  extracted)))
      (add_call (latitude, longitude) w).
Proof.
  intros [Hlat Hlon] Hreply Hget Hvalid. cbn [fst snd] in Hlat, Hlon.
  unfold TransformDb.process_row.
  rewrite (bind_Done _ _ _ _ _ (getitem_Some _ _ _ _ Hlat)).
  rewrite (bind_Done _ _ _ _ _ (getitem_Some _ _ _ _ Hlon)).
  rewrite (bind_Done _ _ _ _ _ (db_get_address_reply _ _ _ _ _ Hreply)).
  destruct (truthy _) eqn:Ht.
  - rewrite Hget.
    rewrite (bind_Done _ _ _ _ _ (getitem_Some _ _ _ _ Hlat)).
    rewrite (bind_Done _ _ _ _ _ (getitem_Some _ _ _ _ Hlon)).
    rewrite Hvalid.
    rewrite (bind_Done _ _ _ _ _ (getitem_Some _ _ _ _ Hlat)).
    rewrite (bind_Done _ _ _ _ _ (getitem_Some _ _ _ _ Hlon)).
    reflexivity.
  - destruct (default [] (cand_address_components result_0)); [|done].
    by rewrite extract_nil in Hget.
Qed.

(** X17: in transform_db.py, distance_km and bearing_degrees are read only
    once the address has passed the validator, and then both are needed:
    if one of them is missing from the row, the turn raises its
    [KeyError] after the call to the service, with nothing inserted and
    nothing logged. *)
Theorem db_validated_row_needs_columns
  E (coordinate : row) (w : world) (latitude longitude : value)
  (result_0 : candidate) (others : list candidate) (extracted : dict value)
  (column : string) :
  sent_for coordinate (latitude, longitude) ->
  reverse_geocode E (api_calls w) latitude longitude
  = Reply (result_0 :: others) ->
  TransformDb.get_address_from_address_components
    (default [] (cand_address_components result_0)) = Some extracted ->
  TransformDb.is_address_valid
    (update [("latitude", latitude); ("longitude", longitude)] extracted)
  = true ->
  column = "distance_km"
  \/ (column = "bearing_degrees" /\ lookup "distance_km" coordinate <> None) ->
  lookup column coordinate = None ->
  TransformDb.process_row E coordinate w
  = Raised (KeyError column) (add_call (latitude, longitude) w).
Proof.
  intros Hsent Hreply Hget Hvalid Hcol Hnone.
  rewrite (db_validated_row_eq _ _ _ _ _ _ _ _ Hsent Hreply Hget Hvalid).
  unfold bind at 1, getitem at 1.
  destruct Hcol as [->|[-> Hdist]]; [by rewrite Hnone|].
  destruct (lookup "distance_km" coordinate); [|done]. cbn [ret].
  unfold bind, getitem. by rewrite Hnone.
Qed.

Lemma db_validated_row_needs_columns_witness :
  let E := Env Samples.rooftop_service Samples.accepting_db true in
  let bare := [ ("latitude", VNum (-30 # 1)); ("longitude", VNum (-51 # 1)) ] in
  TransformDb.process_row E bare Samples.empty_world
  = Raised (KeyError "distance_km")
           (add_call (VNum (-30 # 1), VNum (-51 # 1)) Samples.empty_world).
Proof.
  intros E bare.
  apply (db_validated_row_needs_columns E bare Samples.empty_world
           (VNum (-30 # 1)) (VNum (-51 # 1))
           (Candidate (Some Samples.full_components)) []
           (default [] (TransformDb.get_address_from_address_components
                          Samples.full_components)));
    [done|reflexivity|reflexivity|reflexivity|by left|reflexivity].
Defined.

(** X18: transform_csv_to_database.py logs "Address saved" before it
    stores anything.  When the database refuses the coordinate row of a
    row with an extracted address, the turn ends with the database's
    exception in flight, the INFO record already in the log and neither
    table changed. *)
Theorem csv_saved_logged_before_insert
  E (coordinate : row) (w : world) (latitude longitude : value)
  (result_0 : candidate) (others : list candidate) (extracted : dict value)
  (cell_0 cell_1 distance_km bearing_degrees : value) (e : exn) :
  sent_for coordinate (latitude, longitude) ->
  reverse_geocode E (api_calls w) latitude longitude
  = Reply (result_0 :: others) ->
  TransformCsv.get_address_from_address_components
    (default [] (cand_address_components result_0)) = Some extracted ->
  nth_error (coordinate.*2) 0 = Some cell_0 ->
  nth_error (coordinate.*2) 1 = Some cell_1 ->
  lookup "distance_km" coordinate = Some distance_km ->
  lookup "bearing_degrees" coordinate = Some bearing_degrees ->
  db_refuses E coordinate_points_table (coordinate_points w)
    [ ("latitude", latitude); ("longitude", longitude);
      ("distance_km", distance_km); ("bearing_degrees", bearing_degrees) ]
  = Some e ->
  exists w',
    TransformCsv.process_row E coordinate w = Raised e w'
    /\ log w'
       = log w
         ++ [(INFO,
              MsgSaved
                (update [("latitute", cell_0); ("longitute", cell_1)]
                        extracted))]
    /\ coordinate_points w' = coordinate_points w
    /\ addresses w' = addresses w.
Proof.
  intros [Hlat Hlon] Hreply Hget H0 H1 Hdist Hbear Hrefuse.
  cbn [fst snd] in Hlat, Hlon. eexists. split.
  - unfold TransformCsv.process_row. cbv zeta.
    rewrite (bind_Done _ _ _ _ _ (getitem_Some _ _ _ _ Hlat)).
    rewrite (bind_Done _ _ _ _ _ (getitem_Some _ _ _ _ Hlon)).
    rewrite (bind_Done _ _ _ _ _ (csv_get_address_reply _ _ _ _ _ Hreply)).
    destruct (truthy _) eqn:Ht.
    + rewrite Hget. unfold bind at 1, values_at at 1. rewrite H0. cbn [ret].
      unfold bind at 1, values_at at 1. rewrite H1. cbn [ret].
      rewrite (csv_merge_passes _ _ _ _ Hget).
      unfold bind at 1, logger at 1.
      rewrite (bind_Done _ _ _ _ _ (getitem_Some _ _ _ _ Hlat)).
      rewrite (bind_Done _ _ _ _ _ (getitem_Some _ _ _ _ Hlon)).
      rewrite (bind_Done _ _ _ _ _ (getitem_Some _ _ _ _ Hdist)).
      rewrite (bind_Done _ _ _ _ _ (getitem_Some _ _ _ _ Hbear)).
      unfold bind, insert. cbn [rows_of add_log add_call coordinate_points].
      rewrite Hrefuse. reflexivity.
    + destruct (default [] (cand_address_components result_0)); [|done].
      by rewrite extractors_agree, extract_nil in Hget.
  - done.
Qed.

Lemma csv_saved_logged_before_insert_witness :
  let E := Env Samples.rooftop_service Samples.unique_place_db true in
  exists w' m,
    TransformCsv.process_row E Samples.porto_alegre
      Samples.porto_alegre_stored
    = Raised Samples.duplicate_key w'
    /\ log w' = log Samples.porto_alegre_stored ++ [(INFO, MsgSaved m)]
    /\ coordinate_points w' = coordinate_points Samples.porto_alegre_stored
    /\ addresses w' = addresses Samples.porto_alegre_stored.
Proof.
  intros E.
  destruct (csv_saved_logged_before_insert E Samples.porto_alegre
              Samples.porto_alegre_stored (VNum (-30 # 1)) (VNum (-51 # 1))
              (Candidate (Some Samples.full_components)) []
              (default [] (TransformDb.get_address_from_address_components
                             Samples.full_components))
              (VNum (-30 # 1)) (VNum (-51 # 1)) (VNum (12 # 1))
              (VNum (90 # 1)) Samples.duplicate_key)
    as (w' & Hrun & Hlog & Htables);
    [done|reflexivity|reflexivity|reflexivity|reflexivity|reflexivity
    |reflexivity|reflexivity|].
  exists w'. eexists. split; [exact Hrun|]. split; [exact Hlog|exact Htables].
Defined.

(** ** Failures that are not handled *)

(** X19: only [ApiError] is caught around the call to the service.  Any
    other exception the client raises leaves either script as it is: no
    log record, no exit status of the script's own, the rows before
    processed and the rows after not touched. *)
Theorem service_error_propagates
  E (pre : list row) (coordinate : row) (post : list row) (w : world)
  (latitude longitude : value) (e : exn) :
  sent_for coordinate (latitude, longitude) ->
  (forall message, e <> ApiError message) ->
  (forall w1,
     TransformDb.save_dataset_coordinates_to_database E pre w = Done tt w1 ->
     reverse_geocode E (api_calls w1) latitude longitude = Fails e ->
     TransformDb.save_dataset_coordinates_to_database E
       (pre ++ coordinate :: post) w
     = Raised e (add_call (latitude, longitude) w1))
  /\ (forall w1,
        TransformCsv.save_dataset_coordinates_to_database E pre w
        = Done tt w1 ->
        reverse_geocode E (api_calls w1) latitude longitude = Fails e ->
        TransformCsv.save_dataset_coordinates_to_database E
          (pre ++ coordinate :: post) w
        = Raised e (add_call (latitude, longitude) w1)).
Proof.
  intros [Hlat Hlon] Hne. cbn [fst snd] in Hlat, Hlon.
  split; intros w1 Hpre Hfail.
  - rewrite db_batch_app, (bind_Done _ _ _ _ _ Hpre).
    cbn [TransformDb.save_dataset_coordinates_to_database].
    unfold bind at 1, TransformDb.process_row.
    rewrite (bind_Done _ _ _ _ _ (getitem_Some _ _ _ _ Hlat)).
    rewrite (bind_Done _ _ _ _ _ (getitem_Some _ _ _ _ Hlon)).
    unfold bind, TransformDb.get_address_from_coordinates. rewrite Hfail.
    destruct e as [| |m| | |]; try reflexivity. by destruct (Hne m).
  - rewrite csv_batch_app, (bind_Done _ _ _ _ _ Hpre).
    cbn [TransformCsv.save_dataset_coordinates_to_database].
    unfold bind at 1, TransformCsv.process_row. cbv zeta.
    rewrite (bind_Done _ _ _ _ _ (getitem_Some _ _ _ _ Hlat)).
    rewrite (bind_Done _ _ _ _ _ (getitem_Some _ _ _ _ Hlon)).
    unfold bind, TransformCsv.get_address_from_coordinates. rewrite Hfail.
    destruct e as [| |m| | |]; try reflexivity. by destruct (Hne m).
Qed.

Lemma service_error_propagates_witness :
  let E := Env (fun _ _ _ => Fails (TransportError "timed out"))
               Samples.accepting_db true in
  let w' := add_call (VNum (-30 # 1), VNum (-51 # 1)) Samples.empty_world in
  TransformDb.save_dataset_coordinates_to_database E
    ([] ++ Samples.porto_alegre :: [Samples.canoas]) Samples.empty_world
  = Raised (TransportError "timed out") w'
  /\ TransformCsv.save_dataset_coordinates_to_database E
       ([] ++ Samples.porto_alegre :: [Samples.canoas]) Samples.empty_world
     = Raised (TransportError "timed out") w'.
Proof.
  intros E w'.
  destruct (service_error_propagates E [] Samples.porto_alegre
              [Samples.canoas] Samples.empty_world
              (VNum (-30 # 1)) (VNum (-51 # 1))
              (TransportError "timed out")) as [Hdb Hcsv];
    [done|discriminate|].
  split; [apply Hdb|apply Hcsv]; reflexivity.
Defined.

(** X20: a turn of either loop writes a WARNING record for a row for
    which the service returned no candidate, and for no other row: the
    number of WARNING records grows by one in that case and not at all in
    every other, however the turn ends. *)
Theorem warning_only_when_nothing_found E (coordinate : row) (w : world) :
  skipped_not_found (final_world (TransformDb.process_row E coordinate w))
  = skipped_not_found w + (if finds_nothing E coordinate w then 1 else 0)
  /\ skipped_not_found
       (final_world (TransformCsv.process_row E coordinate w))
     = skipped_not_found w + (if finds_nothing E coordinate w then 1 else 0).
Proof. split; [apply db_not_found_tally|apply csv_not_found_tally]. Qed.

(** X21: [save_to_database] of transform_db.py always returns, whatever
    the database does.  It leaves exactly one more log record: INFO with
    the address when both rows were stored, CRITICAL otherwise, and then
    no address row was added and at most the coordinate row. *)
Theorem db_save_always_returns E (coordinate address : row) (w : world) :
  exists w' l m,
    TransformDb.save_to_database E coordinate address w = Done tt w'
    /\ log w' = log w ++ [(l, m)]
    /\ api_calls w' = api_calls w
    /\ ((l = INFO /\ m = MsgSaved address
         /\ coordinate_points w' = coordinate_points w ++ [coordinate]
         /\ addresses w' = addresses w ++ [address])
        \/ (l = CRITICAL
            /\ addresses w' = addresses w
            /\ (coordinate_points w' = coordinate_points w
                \/ coordinate_points w'
                   = coordinate_points w ++ [coordinate]))).
Proof.
  rewrite db_save_to_database_eq.
  destruct (db_refuses E coordinate_points_table _ _) as [e|];
    [|cbv zeta; destruct (db_refuses E addresses_table _ _) as [e|]];
    do 3 eexists; (split; [reflexivity|]);
    rewrite log_reported, api_calls_reported, coordinate_points_reported,
      addresses_reported;
    (split; [reflexivity|]); (split; [reflexivity|]); cbn; auto 10.
Qed.

(** X22: the exceptions that leave a turn of the loop of
    transform_csv_to_database.py are the [KeyError] of a column the row
    lacks, the exception the service raised, or the exception the database
    raised on an insert. *)
Theorem csv_process_row_raises E (coordinate : row) (w w' : world) (e : exn) :
  TransformCsv.process_row E coordinate w = Raised e w' ->
  (exists column, e = KeyError column /\ lookup column coordinate = None)
  \/ (exists latitude longitude,
        reverse_geocode E (api_calls w) latitude longitude = Fails e)
  \/ (exists t rows r, db_refuses E t rows r = Some e).
Proof.
  generalize (csv_process_row_turn E coordinate w).
  generalize (TransformCsv.process_row E coordinate w).
  intros o Hturn Ho. destruct Hturn; try discriminate;
    try match goal with
      | H : csv_store _ _ _ _ _ _ _ |- _ => destruct H
      end; try discriminate;
    injection Ho as <- <-; eauto 10.
Qed.

Lemma csv_process_row_raises_witness :
  let E := Env Samples.rooftop_service Samples.unique_place_db true in
  (exists column,
     Samples.duplicate_key = KeyError column
     /\ lookup column Samples.porto_alegre = None)
  \/ (exists latitude longitude,
        reverse_geocode E (api_calls Samples.porto_alegre_stored)
          latitude longitude = Fails Samples.duplicate_key)
  \/ (exists t rows r, db_refuses E t rows r = Some Samples.duplicate_key).
Proof.
  intros E.
  apply (csv_process_row_raises E Samples.porto_alegre
           Samples.porto_alegre_stored
           (final_world
              (TransformCsv.process_row E Samples.porto_alegre
                 Samples.porto_alegre_stored))).
  reflexivity.
Defined.

Lemma db_process_row_raises_witness :
  let E := Env Samples.rooftop_service Samples.accepting_db true in
  let bare := [ ("latitude", VNum (-30 # 1)); ("longitude", VNum (-51 # 1)) ] in
  ((exists column,
      KeyError "distance_km" = KeyError column /\ lookup column bare = None)
   \/ (exists latitude longitude,
         reverse_geocode E (api_calls Samples.empty_world) latitude longitude
         = Fails (KeyError "distance_km")))
  /\ coordinate_points
       (add_call (VNum (-30 # 1), VNum (-51 # 1)) Samples.empty_world)
     = coordinate_points Samples.empty_world
  /\ addresses (add_call (VNum (-30 # 1), VNum (-51 # 1)) Samples.empty_world)
     = addresses Samples.empty_world.
Proof.
  intros E bare.
  apply (db_process_row_raises E bare Samples.empty_world). reflexivity.
Defined.

Lemma db_conflict_contained_witness :
  let E := Env Samples.rooftop_service Samples.unique_place_db true in
  exists w',
    TransformDb.save_to_database E Samples.porto_alegre
      Samples.porto_alegre_address Samples.porto_alegre_stored
    = Done tt w'
    /\ log w'
       = log Samples.porto_alegre_stored
         ++ [(CRITICAL,
              MsgText
                (replace_newlines
                   ("duplicate key value violates unique constraint"
                    ++ String "010"%char
                         "DETAIL:  Key (latitude, longitude) already exists.")))]
    /\ addresses w' = addresses Samples.porto_alegre_stored.
Proof.
  intros E.
  apply (db_conflict_contained E Samples.porto_alegre
           Samples.porto_alegre_address Samples.porto_alegre_stored).
  left. reflexivity.
Defined.

(** ** Rows that reach the tables, rows that do not *)

(** X26: the way through transform_db.py.  For a row with its four
    columns, an answer whose first candidate carries all seven recognized
    tags and a database that accepts the two rows, the turn ends normally
    with the coordinate row (the four columns of the input row) added to
    [coordinate_points], the address row built from the extracted address
    and the row's coordinates added to [addresses], and the address logged
    at INFO. *)
Theorem db_complete_row_stored
  E (coordinate : row) (w : world)
  (latitude longitude distance_km bearing_degrees : value)
  (result_0 : candidate) (others : list candidate) (cs : list component)
  (extracted : dict value) :
  sent_for coordinate (latitude, longitude) ->
  lookup "distance_km" coordinate = Some distance_km ->
  lookup "bearing_degrees" coordinate = Some bearing_degrees ->
  reverse_geocode E (api_calls w) latitude longitude
  = Reply (result_0 :: others) ->
  cand_address_components result_0 = Some cs ->
  TransformDb.get_address_from_address_components cs = Some extracted ->
  (forall tag, tag ∈ recognized_tags -> exists c, c ∈ cs /\ carries tag c) ->
  let coordinate_row :=
    [ ("latitude", latitude); ("longitude", longitude);
      ("distance_km", distance_km); ("bearing_degrees", bearing_degrees) ] in
  let address_row :=
    TransformDb.addresses_row
      (update [("latitude", latitude); ("longitude", longitude)] extracted) in
  db_refuses E coordinate_points_table (coordinate_points w) coordinate_row
  = None ->
  db_refuses E addresses_table (addresses w) address_row = None ->
  exists w',
    TransformDb.process_row E coordinate w = Done tt w'
    /\ coordinate_points w' = coordinate_points w ++ [coordinate_row]
    /\ addresses w' = addresses w ++ [address_row]
    /\ log w' = log w ++ [(INFO, MsgSaved address_row)]
    /\ get "latitude" address_row = latitude
    /\ get "longitude" address_row = longitude.
Proof.
  intros Hsent Hdist Hbear Hreply Hcs Hget Hall coordinate_row address_row
    Hc Ha.
  pose proof (proj2 (db_merged_valid_lemma cs extracted latitude longitude
                       Hget) Hall) as Hvalid.
  eexists. split.
  - rewrite (db_validated_row_eq E coordinate w latitude longitude result_0
               others extracted Hsent Hreply); [|by rewrite Hcs|done].
    rewrite (bind_Done _ _ _ _ _ (getitem_Some _ _ _ _ Hdist)).
    rewrite (bind_Done _ _ _ _ _ (getitem_Some _ _ _ _ Hbear)).
    rewrite db_save_to_database_eq.
    cbn [add_call coordinate_points addresses].
    fold coordinate_row address_row. rewrite Hc. cbv zeta. rewrite Ha.
    reflexivity.
  - unfold address_row.
    rewrite coordinate_points_reported, addresses_reported, log_reported,
      db_addresses_row_latitude, db_addresses_row_longitude,
      get_merged_latitude, get_merged_longitude.
    done.
Qed.

Lemma db_complete_row_stored_witness :
  let E := Env Samples.rooftop_service Samples.accepting_db true in
  exists w',
    TransformDb.process_row E Samples.porto_alegre Samples.empty_world
    = Done tt w'
    /\ coordinate_points w' = [] ++ [Samples.porto_alegre]
    /\ addresses w' = [] ++ [Samples.porto_alegre_address]
    /\ log w' = [] ++ [(INFO, MsgSaved Samples.porto_alegre_address)]
    /\ get "latitude" Samples.porto_alegre_address = VNum (-30 # 1)
    /\ get "longitude" Samples.porto_alegre_address = VNum (-51 # 1).
Proof.
  intros E.
  apply (db_complete_row_stored E Samples.porto_alegre Samples.empty_world
           (VNum (-30 # 1)) (VNum (-51 # 1)) (VNum (12 # 1)) (VNum (90 # 1))
           (Candidate (Some Samples.full_components)) []
           Samples.full_components
           (default [] (TransformDb.get_address_from_address_components
                          Samples.full_components)));
    try reflexivity; [done|exact full_components_carry_all].
Defined.

(** X27: incomplete addresses are dropped without a trace in
    transform_db.py.  When the first candidate's components leave one of
    the seven recognized tags out, the turn ends normally with nothing
    inserted, nothing logged and nothing printed; only the call to the
    service is recorded. *)
Theorem db_incomplete_row_dropped
  E (coordinate : row) (w : world) (latitude longitude : value)
  (result_0 : candidate) (others : list candidate) (cs : list component)
  (tag : string) :
  sent_for coordinate (latitude, longitude) ->
  reverse_geocode E (api_calls w) latitude longitude
  = Reply (result_0 :: others) ->
  cand_address_components result_0 = Some cs ->
  tag ∈ recognized_tags ->
  (forall c, c ∈ cs -> ~ carries tag c) ->
  TransformDb.process_row E coordinate w
  = Done tt (add_call (latitude, longitude) w).
Proof.
  intros [Hlat Hlon] Hreply Hcs Htag Hno. cbn [fst snd] in Hlat, Hlon.
  unfold TransformDb.process_row.
  rewrite (bind_Done _ _ _ _ _ (getitem_Some _ _ _ _ Hlat)).
  rewrite (bind_Done _ _ _ _ _ (getitem_Some _ _ _ _ Hlon)).
  rewrite (bind_Done _ _ _ _ _ (db_get_address_reply _ _ _ _ _ Hreply)).
  rewrite Hcs. cbn [default from_option id].
  destruct (truthy cs); [|reflexivity].
  destruct (TransformDb.get_address_from_address_components cs)
    as [extracted|] eqn:Hget; [|reflexivity].
  rewrite (bind_Done _ _ _ _ _ (getitem_Some _ _ _ _ Hlat)).
  rewrite (bind_Done _ _ _ _ _ (getitem_Some _ _ _ _ Hlon)).
  destruct (TransformDb.is_address_valid _) eqn:Hvalid; [|reflexivity].
  exfalso.
  pose proof (proj1 (db_merged_valid_lemma cs extracted latitude longitude
                       Hget) Hvalid) as Hall.
  destruct (Hall tag Htag) as (c & Hc & Hcar). by apply (Hno c).
Qed.

Lemma db_incomplete_row_dropped_witness :
  let E := Env (fun _ _ _ =>
                  Reply [Candidate
                           (Some [Component (Some ["country"; "political"])
                                            (VStr "Brazil") (VStr "BR")])])
               Samples.accepting_db true in
  TransformDb.process_row E Samples.porto_alegre Samples.empty_world
  = Done tt (add_call (VNum (-30 # 1), VNum (-51 # 1)) Samples.empty_world).
Proof.
  intros E.
  apply (db_incomplete_row_dropped E Samples.porto_alegre Samples.empty_world
           (VNum (-30 # 1)) (VNum (-51 # 1))
           (Candidate
              (Some [Component (Some ["country"; "political"])
                               (VStr "Brazil") (VStr "BR")])) []
           [Component (Some ["country"; "political"]) (VStr "Brazil")
                      (VStr "BR")] "route");
    [done|reflexivity|reflexivity|by_compute|].
  intros c Hc. apply list_elem_of_singleton in Hc as ->.
  unfold carries. cbn [types]. by_compute.
Defined.

Lemma get_absent (k : string) (d : dict value) :
  k ∉ field_names d -> get k d = VNone.
Proof.
  unfold field_names. induction d as [|[k' v] d IH]; [done|].
  rewrite keys_cons. cbn [list_to_set get]. intros Hno.
  destruct (String.eqb_spec k k') as [->|Hne].
  - exfalso. apply Hno, elem_of_union. left. by apply elem_of_singleton.
  - apply IH. intros Hin. apply Hno, elem_of_union. by right.
Qed.

(** X28: transform_csv_to_database.py stores every extracted address,
    complete or not, and stores it without its coordinates.  For a row
    with its four columns, any answer from which the extractor returns an
    address and a database that accepts every row, the turn ends normally
    with one row added to each table, and the added address row has
    [None] as latitude and as longitude. *)
Theorem csv_stores_without_coordinates
  E (coordinate : row) (w : world)
  (latitude longitude distance_km bearing_degrees : value)
  (result_0 : candidate) (others : list candidate) (extracted : dict value) :
  sent_for coordinate (latitude, longitude) ->
  lookup "distance_km" coordinate = Some distance_km ->
  lookup "bearing_degrees" coordinate = Some bearing_degrees ->
  reverse_geocode E (api_calls w) latitude longitude
  = Reply (result_0 :: others) ->
  TransformCsv.get_address_from_address_components
    (default [] (cand_address_components result_0)) = Some extracted ->
  (forall t rows r, db_refuses E t rows r = None) ->
  exists w' address_row,
    TransformCsv.process_row E coordinate w = Done tt w'
    /\ coordinate_points w'
       = coordinate_points w
         ++ [[ ("latitude", latitude); ("longitude", longitude);
               ("distance_km", distance_km);
               ("bearing_degrees", bearing_degrees) ]]
    /\ addresses w' = addresses w ++ [address_row]
    /\ get "latitude" address_row = VNone
    /\ get "longitude" address_row = VNone.
Proof.
  intros Hsent Hdist Hbear Hreply Hget Hacc.
  generalize (csv_process_row_turn E coordinate w).
  generalize (TransformCsv.process_row E coordinate w). intros o Hturn.
  destruct Hsent as [Hlat Hlon]. cbn [fst snd] in Hlat, Hlon.
  destruct Hturn as [column Hcol Hnone| lat lon e [Hlat' Hlon'] Hr _
                    | lat lon m [Hlat' Hlon'] Hr | lat lon [Hlat' Hlon'] Hr
                    | lat lon r0 rs [Hlat' Hlon'] Hr Hn
                    | lat lon r0 rs ex c0 c1 o [Hlat' Hlon'] Hr Hex H0 H1 Hst];
    cbn [fst snd] in *.
  - destruct Hcol as [->|[-> _]]; congruence.
  - congruence.
  - congruence.
  - congruence.
  - congruence.
  - assert (lat = latitude) as -> by congruence.
    assert (lon = longitude) as -> by congruence.
    assert (r0 = result_0) as -> by congruence.
    assert (ex = extracted) as -> by congruence.
    destruct Hst as [column Hcol Hnone| d b e Hd Hb Hc | d b e Hd Hb Hc Ha
                    | d b Hd Hb Hc Ha].
    + destruct Hcol as [->|[-> _]]; congruence.
    + by rewrite Hacc in Hc.
    + by rewrite Hacc in Ha.
    + assert (d = distance_km) as -> by congruence.
      assert (b = bearing_degrees) as -> by congruence.
      do 2 eexists. split; [reflexivity|]. split; [reflexivity|].
      split; [reflexivity|].
      rewrite extractors_agree in Hget.
      apply extracted_address_fields in Hget as [_ Hnames].
      assert (Hout : forall k, k ∉ extracted_fields -> k <> "latitute" ->
                               k <> "longitute" ->
                get k (update [("latitute", c0); ("longitute", c1)] extracted)
                = VNone).
      { intros k Hk H1' H2'. apply get_absent. unfold update.
        cbn [fold_left fst snd].
        rewrite !field_names_setitem, Hnames, !elem_of_union,
          !elem_of_singleton.
        intros [?|[?|Hin]]; [done|done|].
        by apply extracted_fields_bound in Hin. }
      split; (etransitivity; [|apply Hout]); try done; by_compute.
Qed.

Lemma csv_stores_without_coordinates_witness :
  let E := Env (fun _ _ _ =>
                  Reply [Candidate
                           (Some [Component (Some ["country"; "political"])
                                            (VStr "Brazil") (VStr "BR")])])
               Samples.accepting_db true in
  exists w' address_row,
    TransformCsv.process_row E Samples.porto_alegre Samples.empty_world
    = Done tt w'
    /\ coordinate_points w' = [] ++ [Samples.porto_alegre]
    /\ addresses w' = [] ++ [address_row]
    /\ get "latitude" address_row = VNone
    /\ get "longitude" address_row = VNone.
Proof.
  intros E.
  apply (csv_stores_without_coordinates E Samples.porto_alegre
           Samples.empty_world (VNum (-30 # 1)) (VNum (-51 # 1))
           (VNum (12 # 1)) (VNum (90 # 1))
           (Candidate
              (Some [Component (Some ["country"; "political"])
                               (VStr "Brazil") (VStr "BR")])) []
           [("country", VStr "Brazil")]); try reflexivity; done.
Defined.

(** X25: in transform_db.py, a row of [addresses] comes from the answer of
    the service and carries the coordinates of the input row.  Whenever a
    turn of the loop adds to [addresses], the service answered the row's
    latitude and longitude with at least one candidate, the extractor
    returned an address for the first candidate's components, that address
    with the row's latitude and longitude merged in passed the validator,
    and the one row added is the row built from it, with exactly these two
    values. *)
Theorem db_persisted_coordinates E (coordinate : row) (w w' : world) :
  TransformDb.process_row E coordinate w = Done tt w' ->
  addresses w' <> addresses w ->
  exists latitude longitude result_0 others extracted,
    sent_for coordinate (latitude, longitude)
    /\ reverse_geocode E (api_calls w) latitude longitude
       = Reply (result_0 :: others)
    /\ TransformDb.get_address_from_address_components
         (default [] (cand_address_components result_0)) = Some extracted
    /\ let merged :=
         update [("latitude", latitude); ("longitude", longitude)] extracted in
       TransformDb.is_address_valid merged = true
       /\ get "latitude" merged = latitude
       /\ get "longitude" merged = longitude
       /\ addresses w' = addresses w ++ [TransformDb.addresses_row merged]
       /\ get "latitude" (TransformDb.addresses_row merged) = latitude
       /\ get "longitude" (TransformDb.addresses_row merged) = longitude.
Proof.
  generalize (db_process_row_turn E coordinate w).
  generalize (TransformDb.process_row E coordinate w).
  intros o Hturn Ho Hne.
  destruct Hturn as [ | | | lat lon Hsent Hr | lat lon r0 rs Hsent Hr Hskip |
                    | lat lon r0 rs ex dist bear Hsent Hr Hget Hvalid Hd Hb ];
    try discriminate.
  - injection Ho as <-. exfalso. apply Hne.
    by rewrite addresses_reported.
  - injection Ho as <-. by destruct Hne.
  - rewrite db_save_to_database_eq in Ho. injection Ho as <-.
    destruct (db_refuses E coordinate_points_table _ _) as [e|].
    { exfalso. apply Hne. by rewrite addresses_reported. }
    cbv zeta in Hne.
    destruct (db_refuses E addresses_table _ _) as [e|].
    { exfalso. apply Hne. by rewrite addresses_reported. }
    exists lat, lon, r0, rs, ex. cbv zeta.
    rewrite addresses_reported, db_addresses_row_latitude,
      db_addresses_row_longitude, get_merged_latitude, get_merged_longitude.
    split_and!; done.
Qed.

Lemma db_persisted_coordinates_witness :
  let E := Env Samples.rooftop_service Samples.accepting_db true in
  exists latitude longitude result_0 others extracted,
    sent_for Samples.porto_alegre (latitude, longitude)
    /\ reverse_geocode E (api_calls Samples.empty_world) latitude longitude
       = Reply (result_0 :: others)
    /\ TransformDb.get_address_from_address_components
         (default [] (cand_address_components result_0)) = Some extracted
    /\ let merged :=
         update [("latitude", latitude); ("longitude", longitude)] extracted in
       TransformDb.is_address_valid merged = true
       /\ get "latitude" merged = latitude
       /\ get "longitude" merged = longitude
       /\ addresses
            (final_world
               (TransformDb.process_row E Samples.porto_alegre
                  Samples.empty_world))
          = addresses Samples.empty_world
            ++ [TransformDb.addresses_row merged]
       /\ get "latitude" (TransformDb.addresses_row merged) = latitude
       /\ get "longitude" (TransformDb.addresses_row merged) = longitude.
Proof.
  intros E.
  apply (db_persisted_coordinates E Samples.porto_alegre Samples.empty_world).
  - vm_compute. reflexivity.
  - vm_compute. discriminate.
Defined.
